(** * spt: the Snowflake Stored Procedure Transpiler (bin/main.ts)

    A shallow embedding of [bin/main.ts] and the properties its
    specification states about it.  Strings are Stdlib strings, arrays are
    lists, object literals used as lookup tables are finite maps whose
    lookups fall back to [Object.prototype] as JavaScript property reads
    do, and [async] functions are computations in a small state-and-
    exception monad over the part of the outside world the code touches
    (scratch directories, written files, the bundler). *)

From Stdlib Require Import Ascii String List Arith Lia Bool.
From stdpp Require Import base option list strings gmap pretty.
Import ListNotations.

Local Open Scope string_scope.
Local Open Scope list_scope.

(* ================================================================== *)
(** ** JavaScript strings and arrays *)
(* ================================================================== *)

Module Js.

(** [`${n}`] for an array length: the decimal numeral. *)
Definition number_toString (n : nat) : string := pretty n.

(** [String.prototype.toUpperCase] on strings of ASCII characters, where
    it changes the letters a to z and nothing else.  Bytes from 128 on are
    left as they are, which is not what the builtin does to the letters
    they encode: statements that depend on the body of this definition
    are stated for ASCII strings. *)
Definition upper_ascii (c : ascii) : ascii :=
  let n := nat_of_ascii c in
  if Nat.leb 97 n && Nat.leb n 122 then ascii_of_nat (n - 32) else c.

Fixpoint toUpperCase (s : string) : string :=
  match s with
  | EmptyString => EmptyString
  | String c s' => String (upper_ascii c) (toUpperCase s')
  end.

(** [Array.prototype.join] on an array of strings. *)
Fixpoint join (sep : string) (xs : list string) : string :=
  match xs with
  | [] => ""
  | [x] => x
  | x :: xs' => x +:+ sep +:+ join sep xs'
  end.

(** [s.substring(0, s.length - 3)]: a negative end index counts as 0,
    which is what truncated subtraction gives. *)
Definition drop_extension (s : string) : string :=
  substring 0 (String.length s - 3) s.

(** [s.endsWith(suffix)] *)
Definition endsWith (s suffix : string) : bool :=
  Nat.leb (String.length suffix) (String.length s)
  && String.eqb
       (substring (String.length s - String.length suffix)
                  (String.length suffix) s)
       suffix.

Definition LF : ascii := ascii_of_nat 10.
Definition CR : ascii := ascii_of_nat 13.
Definition NL : string := String LF EmptyString.

Definition push_front (c : ascii) (ls : list string) : list string :=
  match ls with
  | [] => [String c EmptyString]
  | l :: ls' => String c l :: ls'
  end.

(** [s.split(/\r?\n/)]: a line feed, or a carriage return immediately
    followed by a line feed, separates two pieces; a lone carriage
    return is an ordinary character. *)
Fixpoint split_lines (s : string) : list string :=
  match s with
  | EmptyString => [""]
  | String c s' =>
      if Ascii.eqb c LF then "" :: split_lines s'
      else if Ascii.eqb c CR then
        match s' with
        | String c' s'' =>
            if Ascii.eqb c' LF then "" :: split_lines s''
            else push_front c (split_lines s')
        | EmptyString => push_front c (split_lines s')
        end
      else push_front c (split_lines s')
  end.

(** *** Values that flow through the two lookup tables

    [mapToSQL] and [runAs] read a property of an object literal with a
    key supplied by the program under translation.  What comes back is
    the table entry (a string, or the number of an enum member), or a
    member of [Object.prototype] that every object literal inherits, or
    [undefined]. *)
Inductive value : Type :=
| VUndefined
| VNumber (n : nat)
| VString (s : string)
| VNative (fname : string)   (* a built-in function object *)
| VObjectPrototype.          (* the object Object.prototype itself *)

#[export] Instance value_eq_dec : EqDecision value.
Proof. solve_decision. Defined.

(** The properties of [Object.prototype] reachable by a property read on
    a plain object; [__proto__] is an accessor answering the prototype
    of the receiver, which for an object literal is [Object.prototype]. *)
Definition Object_prototype_table : list (string * value) :=
  [ ("constructor", VNative "Object");
    ("__defineGetter__", VNative "__defineGetter__");
    ("__defineSetter__", VNative "__defineSetter__");
    ("hasOwnProperty", VNative "hasOwnProperty");
    ("__lookupGetter__", VNative "__lookupGetter__");
    ("__lookupSetter__", VNative "__lookupSetter__");
    ("isPrototypeOf", VNative "isPrototypeOf");
    ("propertyIsEnumerable", VNative "propertyIsEnumerable");
    ("toString", VNative "toString");
    ("valueOf", VNative "valueOf");
    ("__proto__", VObjectPrototype);
    ("toLocaleString", VNative "toLocaleString") ].

Definition Object_prototype : gmap string value :=
  list_to_map Object_prototype_table.

(** [o[k]] for an object literal [o] with own properties [own]: the own
    property if there is one, else the inherited one, else undefined. *)
Definition get (own : gmap string value) (k : string) : value :=
  match own !! k with
  | Some v => v
  | None => default VUndefined (Object_prototype !! k)
  end.

(** ToBoolean *)
Definition truthy (v : value) : bool :=
  match v with
  | VUndefined => false
  | VNumber n => negb (Nat.eqb n 0)
  | VString s => negb (String.eqb s "")
  | VNative _ => true
  | VObjectPrototype => true
  end.

(** [a || b] *)
Definition or (a b : value) : value := if truthy a then a else b.

(** [a === b] on these values: built-in function objects are identified
    by their name. *)
Definition strict_eq (a b : value) : bool := bool_decide (a = b).

(** ToString, as applied by a template literal and by a computed
    property key. *)
Definition toString (v : value) : string :=
  match v with
  | VUndefined => "undefined"
  | VNumber n => number_toString n
  | VString s => s
  | VNative f => "function " +:+ f +:+ "() { [native code] }"
  | VObjectPrototype => "[object Object]"
  end.

End Js.

(* ================================================================== *)
(** ** Errors and outcomes *)
(* ================================================================== *)

(** A thrown JavaScript error: its [name] and [message]. *)
Record JsError : Type := mkError { err_name : string; err_message : string }.

(** [new Error(message)] *)
Definition Error (message : string) : JsError := mkError "Error" message.

(** The [TypeError] raised by reading property [prop] of [undefined]. *)
Definition TypeError_undefined (prop : string) : JsError :=
  mkError "TypeError"
    ("Cannot read properties of undefined (reading '" +:+ prop +:+ "')").

(** The [TypeError] raised by reading property [prop] of [null]. *)
Definition TypeError_null (prop : string) : JsError :=
  mkError "TypeError"
    ("Cannot read properties of null (reading '" +:+ prop +:+ "')").

(** [`${e}`] for an error object: [Error.prototype.toString]. *)
Definition error_toString (e : JsError) : string :=
  if String.eqb (err_name e) "" then err_message e
  else if String.eqb (err_message e) "" then err_name e
  else err_name e +:+ ": " +:+ err_message e.

(** How a call ends: it returns a value or throws. *)
Inductive outcome (A : Type) : Type :=
| Returned (a : A)
| Thrown (e : JsError).
Arguments Returned {A} a.
Arguments Thrown {A} e.

Definition outcome_bind {A B} (o : outcome A) (k : A -> outcome B) : outcome B :=
  match o with
  | Returned a => k a
  | Thrown e => Thrown e
  end.

(** [xs.map(f)] where [f] may throw: the first throw aborts the map. *)
Fixpoint outcome_map {A B} (f : A -> outcome B) (xs : list A) : outcome (list B) :=
  match xs with
  | [] => Returned []
  | x :: xs' =>
      outcome_bind (f x) (fun y =>
      outcome_bind (outcome_map f xs') (fun ys => Returned (y :: ys)))
  end.

(** [xs.filter(f)] where [f] may throw: the predicate is applied to
    every element in turn and the first throw aborts the filter. *)
Fixpoint outcome_filter {A} (f : A -> outcome bool) (xs : list A) : outcome (list A) :=
  match xs with
  | [] => Returned []
  | x :: xs' =>
      outcome_bind (f x) (fun keep =>
      outcome_bind (outcome_filter f xs') (fun ys =>
      Returned (if keep then x :: ys else ys)))
  end.

(* ================================================================== *)
(** ** Diagnostics *)
(* ================================================================== *)

Record Diagnostics : Type := mkDiagnostics { messages : list string }.

(** What the code reads of a [ts.Diagnostic]: the file with the zero-based
    line and character of [d.start] when [d.file] is set, and the
    flattened message text. *)
Record TsDiagnostic : Type := mkTsDiagnostic {
  d_file : option (string * (nat * nat));
  d_messageText : string
}.

Definition diagnostics (tsDiagnostics : list TsDiagnostic) : Diagnostics :=
  let message (d : TsDiagnostic) : string := d_messageText d in
  let fromFile (d : TsDiagnostic) (fileName : string) (line character : nat) : string :=
    fileName +:+ " (" +:+ Js.number_toString (line + 1) +:+ ","
      +:+ Js.number_toString (character + 1) +:+ "): " +:+ message d in
  {| messages :=
       map (fun d => match d_file d with
                     | Some (f, (line, character)) => fromFile d f line character
                     | None => message d
                     end) tsDiagnostics |}.

(* ================================================================== *)
(** ** Signature (for TypeScript, not SQL) *)
(* ================================================================== *)

Record Sym : Type := mkSym { sym_name : string; sym_doc : string; sym_type : string }.
Record Sig : Type := mkSig { sig_params : list Sym; sig_returnType : string; sig_doc : string }.

(* ================================================================== *)
(** ** Stored Procedure *)
(* ================================================================== *)

(** [type] and [rights] hold whatever the table lookups of [mapToSQL] and
    [runAs] produced. *)
Record Param : Type := mkParam { p_name : string; p_type : Js.value }.

Inductive Rights : Type := NOT_SPECIFIED | CALLER | OWNER.

(** The number of an enum member. *)
Definition Rights_number (r : Rights) : nat :=
  match r with NOT_SPECIFIED => 0 | CALLER => 1 | OWNER => 2 end.

Definition Rights_member (r : Rights) : Js.value := Js.VNumber (Rights_number r).

(** The object a non-const [enum Rights] compiles to, with its reverse
    mapping from numbers to names. *)
Definition Rights_object : gmap string Js.value :=
  list_to_map
    [ ("0", Js.VString "NOT_SPECIFIED"); ("NOT_SPECIFIED", Js.VNumber 0);
      ("1", Js.VString "CALLER"); ("CALLER", Js.VNumber 1);
      ("2", Js.VString "OWNER"); ("OWNER", Js.VNumber 2) ].

Record StoredProcedure : Type := mkStoredProcedure {
  sp_name : string;
  sp_params : list Param;
  sp_returnType : Js.value;
  sp_rights : Js.value
}.

Definition STORED_PROCEDURE_TAG : string := "sf_stored_procedure".

(** A JSDoc tag: [tagName.escapedText], and [comment], which is a string,
    or absent or a node array ([None]). *)
Record JSDocTag : Type := mkTag { tagName : string; tag_comment : option string }.

(** A JSDoc comment: its [tags], which are [undefined] ([None]) when the
    comment has no tag. *)
Record JSDoc : Type := mkJSDoc { jsdoc_tags : option (list JSDocTag) }.

(** A JSDoc comment with the given tags. *)
Definition tagged (tags : list JSDocTag) : JSDoc := mkJSDoc (Some tags).

(** What the code reads of a [ts.FunctionDeclaration]: the identifier
    [decl.name.text], the JSDoc comments
    [ts.getJSDocCommentsAndTags(node).filter(ts.isJSDoc)] yields for it,
    and the call signatures the checker resolves for its type, each as
    [serializeSignature] renders it. *)
Record FunctionDeclaration : Type := mkDecl {
  decl_name : string;
  decl_jsDoc : list JSDoc;
  decl_signatures : list Sig
}.

(** A child of the source file node. *)
Inductive Node : Type :=
| FunctionDeclarationNode (decl : FunctionDeclaration)
| OtherNode.

(** [.flatMap(jsdoc => jsdoc.tags)]: the tags of a comment are spliced
    in; for a comment without tags the callback answers [undefined],
    which is no array and becomes an element ([None]) of the result. *)
Definition jsTags (node : FunctionDeclaration) : list (option JSDocTag) :=
  flat_map (fun jsdoc => match jsdoc_tags jsdoc with
                         | Some tags => map Some tags
                         | None => [None]
                         end)
           (decl_jsDoc node).

Definition mapToSQL_table : list (string * Js.value) :=
  [ ("string", Js.VString "STRING");
    ("number", Js.VString "NUMBER");
    ("Date", Js.VString "TIMESTAMP_LTZ");
    ("boolean", Js.VString "BOOLEAN");
    ("object", Js.VString "VARIANT");
    ("array", Js.VString "ARRAY");
    ("json", Js.VString "VARIANT") ].

Definition mapToSQL (dataType : string) : Js.value :=
  let map : gmap string Js.value := list_to_map mapToSQL_table in
  Js.or (Js.get map dataType) (Js.get map "object").

Definition runAs_table : list (string * Js.value) :=
  [ ("caller", Rights_member CALLER); ("owner", Rights_member OWNER) ].

(** [runAs(tag)]; [tag] is [undefined] when [storedProcedureTag] found
    none, and reading [tag.comment] then throws. *)
Definition runAs (tag : option JSDocTag) : outcome Js.value :=
  let map : gmap string Js.value := list_to_map runAs_table in
  match tag with
  | None => Thrown (TypeError_undefined "comment")
  | Some tag =>
      let comment := match tag_comment tag with Some c => c | None => "" end in
      Returned (Js.or (Js.get map comment) (Rights_member NOT_SPECIFIED))
  end.

Definition is_marker (tag : JSDocTag) : bool :=
  String.eqb (tagName tag) STORED_PROCEDURE_TAG.

(** [tags.find(tag => tag.tagName.escapedText === STORED_PROCEDURE_TAG)]:
    the first marker tag, or [undefined]; reading [tagName] of an
    [undefined] element met on the way throws. *)
Fixpoint find_marker (tags : list (option JSDocTag)) : outcome (option JSDocTag) :=
  match tags with
  | [] => Returned None
  | None :: _ => Thrown (TypeError_undefined "tagName")
  | Some tag :: rest =>
      if is_marker tag then Returned (Some tag) else find_marker rest
  end.

(** [tags.some(tag => tag.tagName.escapedText === STORED_PROCEDURE_TAG)] *)
Fixpoint some_marker (tags : list (option JSDocTag)) : outcome bool :=
  match tags with
  | [] => Returned false
  | None :: _ => Thrown (TypeError_undefined "tagName")
  | Some tag :: rest =>
      if is_marker tag then Returned true else some_marker rest
  end.

Definition storedProcedureTag (decl : FunctionDeclaration) : outcome (option JSDocTag) :=
  find_marker (jsTags decl).

Definition storedProcedure (decl : FunctionDeclaration) : outcome StoredProcedure :=
  let signatures := decl_signatures decl in
  match signatures with
  | [sig] =>
      let ps := drop 1 (sig_params sig) in
      let params :=
        map (fun p => {| p_name := Js.toUpperCase (sym_name p);
                         p_type := mapToSQL (sym_type p) |}) ps in
      let returnType :=
        if negb (String.eqb (sig_returnType sig) "void")
        then mapToSQL (sig_returnType sig)
        else Js.VString "VARIANT NULL" in
      outcome_bind (storedProcedureTag decl) (fun tag =>
      outcome_bind (runAs tag) (fun rights =>
      Returned {| sp_name := decl_name decl;
                  sp_params := params;
                  sp_returnType := returnType;
                  sp_rights := rights |}))
  | _ =>
      (* signatures.length !== 1 *)
      Thrown (Error ("Function " +:+ decl_name decl +:+ " has "
                       +:+ Js.number_toString (length signatures)
                       +:+ " signatures ?!"))
  end.

(** [ts.isFunctionDeclaration(node) && jsTags(node).some(...)] *)
Definition isStoredProcedure (node : Node) : outcome bool :=
  match node with
  | FunctionDeclarationNode decl => some_marker (jsTags decl)
  | OtherNode => Returned false
  end.

(** The declarations the scanner selects: [isStoredProcedure] answers
    true for them. *)
Definition eligible (decl : FunctionDeclaration) : bool :=
  match isStoredProcedure (FunctionDeclarationNode decl) with
  | Returned true => true
  | _ => false
  end.

(** The declaration a node is, once [isStoredProcedure] has narrowed its
    type. *)
Definition declaration_of (node : Node) : option FunctionDeclaration :=
  match node with
  | FunctionDeclarationNode decl => Some decl
  | OtherNode => None
  end.

(** [children.filter(isStoredProcedure).map(n => storedProcedure(checker, n))]:
    the filter runs over all the children before the first descriptor is
    built. *)
Definition storedProcedures (children : list Node) : outcome (list StoredProcedure) :=
  outcome_bind (outcome_filter isStoredProcedure children) (fun nodes =>
  outcome_map storedProcedure (omap declaration_of nodes)).

(* ================================================================== *)
(** ** The outside world of an [async] function *)
(* ================================================================== *)

(** The scratch directories and files on disk, and a counter standing for
    the six random characters [mkdtemp] appends to its prefix. *)
Record World : Type := mkWorld {
  w_dirs : gset string;
  w_files : gmap string string;
  w_next : nat
}.

(** An [async] computation: from a world to an outcome and a world. *)
Definition Async (A : Type) : Type := World -> outcome A * World.

Definition ret {A} (a : A) : Async A := fun w => (Returned a, w).

Definition bind {A B} (m : Async A) (k : A -> Async B) : Async B :=
  fun w =>
    match m w with
    | (Returned a, w') => k a w'
    | (Thrown e, w') => (Thrown e, w')
    end.

Notation "'let*' x ':=' m 'in' k" := (bind m (fun x => k))
  (at level 10, x name, m at level 100, k at level 200).

Definition lift {A} (o : outcome A) : Async A := fun w => (o, w).

(** [try { body } catch (e) { handler e } finally { fin }]: the handler
    runs when the body throws, the finaliser always runs, and a throw of
    the finaliser replaces the result. *)
Definition try_catch_finally {A}
    (body : Async A) (handler : JsError -> Async A) (fin : Async unit) : Async A :=
  fun w =>
    let (r, w1) :=
      match body w with
      | (Returned a, w') => (Returned a, w')
      | (Thrown e, w') => handler e w'
      end in
    match fin w1 with
    | (Returned _, w2) => (r, w2)
    | (Thrown e, w2) => (Thrown e, w2)
    end.

(* File-system calls are taken to succeed. *)

(** [fs.promises.mkdtemp(prefix)] *)
Definition mkdtemp (prefix : string) : Async string :=
  fun w =>
    let d := prefix +:+ pretty (w_next w) in
    (Returned d,
     {| w_dirs := {[ d ]} ∪ w_dirs w; w_files := w_files w; w_next := S (w_next w) |}).

Definition is_under (dir path : string) : bool :=
  String.prefix (dir +:+ "/") path.

(** [fs.promises.rm(dir, {recursive: true})] *)
Definition rm_recursive (dir : string) : Async unit :=
  fun w =>
    (Returned tt,
     {| w_dirs := w_dirs w ∖ {[ dir ]};
        w_files := filter (fun kv => is_under dir kv.1 = false) (w_files w);
        w_next := w_next w |}).

(** The error of a file-system call on a path that does not exist. *)
Definition ENOENT (syscall path : string) : JsError :=
  Error ("ENOENT: no such file or directory, " +:+ syscall +:+ " '" +:+ path +:+ "'").

(** [fs.promises.rm(path)], without [force]: it is rejected when there
    is no file at [path]. *)
Definition rm (path : string) : Async unit :=
  fun w =>
    match w_files w !! path with
    | Some _ =>
        (Returned tt,
         {| w_dirs := w_dirs w; w_files := delete path (w_files w);
            w_next := w_next w |})
    | None => (Thrown (ENOENT "lstat" path), w)
    end.

(** [fs.promises.writeFile(path, content)] *)
Definition writeFile (path content : string) : Async unit :=
  fun w =>
    (Returned tt,
     {| w_dirs := w_dirs w; w_files := <[ path := content ]> (w_files w);
        w_next := w_next w |}).

(** A value of type [A | Diagnostics]. *)
Inductive orDiagnostics (A : Type) : Type :=
| Value (a : A)
| Diags (d : Diagnostics).
Arguments Value {A} a.
Arguments Diags {A} d.

Definition isDiagnostics {A} (x : orDiagnostics A) : bool :=
  match x with
  | Diags _ => true
  | Value _ => false
  end.

(* ================================================================== *)
(** ** Compile *)
(* ================================================================== *)

Definition Bundler : Type :=
  string -> string -> StoredProcedure -> Async (orDiagnostics string).

(** What [compile] reads of the [ts.Program] for one file: the children
    of the source file node if there is one, the pre-emit diagnostics,
    and what [program.emit()] answers and does: whether the emit is
    skipped, its diagnostics, and the files it writes when it is not
    skipped, each with its path and text. *)
Record Program : Type := mkProgram {
  prog_sourceFile : option (list Node);
  prog_preEmitDiagnostics : list TsDiagnostic;
  prog_emitSkipped : bool;
  prog_emitDiagnostics : list TsDiagnostic;
  prog_emitted : list (string * string)
}.

(** The writes of [program.emit()]. *)
Definition emit (files : list (string * string)) : Async unit :=
  fun w =>
    (Returned tt,
     {| w_dirs := w_dirs w;
        w_files := foldl (fun m kv => <[ kv.1 := kv.2 ]> m) (w_files w) files;
        w_next := w_next w |}).

Definition sqlRights (rights : Js.value) : string :=
  if Js.strict_eq rights (Rights_member NOT_SPECIFIED) then ""
  else " execute as " +:+ Js.toString (Js.get Rights_object (Js.toString rights)).

Definition sqlSignature (sp : StoredProcedure) : string :=
  let params := map (fun p => p_name p +:+ " " +:+ Js.toString (p_type p)) (sp_params sp) in
  sp_name sp +:+ ("(" +:+ Js.join ", " params +:+ ")") +:+ " returns "
    +:+ Js.toString (sp_returnType sp).

(** The template literal that renders one statement. *)
Definition spCode (sp : StoredProcedure) (bundle : string) : string :=
  "create or replace procedure " +:+ sqlSignature sp +:+ " language javascript"
    +:+ sqlRights (sp_rights sp) +:+ " as $$" +:+ Js.NL
    +:+ "    let __result = null;" +:+ Js.NL
    +:+ Js.NL
    +:+ "    " +:+ Js.join (Js.NL +:+ "    ") (Js.split_lines bundle) +:+ Js.NL
    +:+ "    return __result;" +:+ Js.NL
    +:+ "$$;".

(** The [for] loop of [pack], with the statements collected so far. *)
Fixpoint pack_loop (bundler : Bundler) (fileName : string)
    (sprocs : list StoredProcedure) (sqlCodes : list string)
    : Async (orDiagnostics (list string)) :=
  match sprocs with
  | [] => ret (Value sqlCodes)
  | sp :: rest =>
      let* tmpDir := mkdtemp "temp-" in
      let* bundle := bundler tmpDir fileName sp in
      match bundle with
      | Diags d => ret (Diags d)
      | Value code =>
          let* _ := rm_recursive tmpDir in
          pack_loop bundler fileName rest (sqlCodes ++ [spCode sp code])
      end
  end.

Definition pack (bundler : Bundler) (fileName : string)
    (sprocs : list StoredProcedure) : Async (orDiagnostics (list string)) :=
  pack_loop bundler fileName sprocs [].

(** [compile], given the program [ts.createProgram] builds for the file. *)
Definition compile (bundler : Bundler) (program : Program) (fileName : string)
    : Async (orDiagnostics (list string)) :=
  match prog_sourceFile program with
  | None => ret (Diags (diagnostics (prog_preEmitDiagnostics program)))
  | Some children =>
      let* sprocs := lift (storedProcedures children) in
      if Nat.eqb (length sprocs) 0 then ret (Value [])
      else if prog_emitSkipped program then
        ret (Diags (diagnostics (prog_preEmitDiagnostics program
                                   ++ prog_emitDiagnostics program)))
      else
        let* _ := emit (prog_emitted program) in
        let* result := pack bundler fileName sprocs in
        let* _ := (if Js.endsWith fileName ".ts"
                   then rm (Js.drop_extension fileName +:+ ".js")
                   else ret tt) in
        ret result
  end.

(* ================================================================== *)
(** ** Main *)
(* ================================================================== *)

(** An element of [RollupOutput.output]. *)
Inductive Output : Type :=
| OutputChunk (code : string)
| OutputAsset.

Definition isChunk (x : Output) : option string :=
  match x with
  | OutputChunk code => Some code
  | OutputAsset => None
  end.

(** A [rollup.RollupBuild]: how [generate] and [close] end on it. *)
Record RollupBuild : Type := mkBuild {
  build_generate : outcome (list Output);
  build_close : outcome unit
}.

(** The bundler: how [rollup.rollup] ends for an entry file, given the
    files on disk. *)
Definition Rollup : Type := string -> gmap string string -> outcome RollupBuild.

(** The text written to [use.js]. *)
Definition use_js (fileName : string) (sp : StoredProcedure) : string :=
  let moduleName := Js.drop_extension fileName +:+ ".js" in
  let args := "snowflake" +:+ Js.join "" (map (fun p => ", " +:+ p_name p) (sp_params sp)) in
  "import {" +:+ sp_name sp +:+ "} from '../" +:+ moduleName +:+ "'" +:+ Js.NL
    +:+ "__result = " +:+ sp_name sp +:+ "(" +:+ args +:+ ")".

(** [path.resolve] only makes the entry path absolute; the model keeps
    the relative path. *)
Definition call_rollup (rollup : Rollup) (tmpDir fileName : string)
    (sp : StoredProcedure) : Async (orDiagnostics string) :=
  let* _ := writeFile (tmpDir +:+ "/use.js") (use_js fileName sp) in
  let* bundle := (fun w => (rollup (tmpDir +:+ "/use.js") (w_files w), w)) in
  try_catch_finally
    (let* output := lift (build_generate bundle) in
     let chunks := omap isChunk output in   (* filter(isChunk).map(code) *)
     ret (Value (Js.join "" chunks)))
    (fun e => ret (Diags {| messages := [error_toString e] |}))
    (lift (build_close bundle)).

(** *** [Promise.all]

    The promises [fileNames.map(f => compile(...))] creates settle one by
    one; [when i] is the instant at which the promise of module [i]
    settles.  [Promise.all] is rejected as soon as one of them is, with
    the reason of the earliest rejection (the lower index wins a tie), and
    is fulfilled once all of them are. *)
Fixpoint first_rejection {A} (when : nat -> nat) (i : nat) (ps : list (outcome A))
    : option (nat * JsError) :=
  match ps with
  | [] => None
  | p :: ps' =>
      let later := first_rejection when (S i) ps' in
      match p with
      | Returned _ => later
      | Thrown e =>
          match later with
          | Some (t, e') => if Nat.ltb t (when i) then Some (t, e') else Some (when i, e)
          | None => Some (when i, e)
          end
      end
  end.

Definition fulfilled {A} (p : outcome A) : option A :=
  match p with
  | Returned a => Some a
  | Thrown _ => None
  end.

Definition Promise_all {A} (when : nat -> nat) (ps : list (outcome A)) : outcome (list A) :=
  match first_rejection when 0 ps with
  | Some (_, e) => Thrown e
  | None => Returned (omap fulfilled ps)
  end.

(** The instant at which [await Promise.all(ps)] resumes [main]. *)
Definition Promise_all_settles {A} (when : nat -> nat) (ps : list (outcome A)) : nat :=
  match first_rejection when 0 ps with
  | Some (t, _) => t
  | None => foldr Nat.max 0 (map when (seq 0 (length ps)))
  end.

(** What a run leaves behind: the exit code handed to [process.exit] and
    the chunks written to the two streams. *)
Record Run : Type := mkRun {
  exitCode : nat;
  stdout : list string;
  stderr : list string
}.

Definition diagnostics_of {A} (x : orDiagnostics A) : option Diagnostics :=
  match x with
  | Diags d => Some d
  | Value _ => None
  end.

(** [main] after the [await]. *)
Definition main_report (compilationResults : list (orDiagnostics (list string))) : Run :=
  let errors := omap diagnostics_of compilationResults in
  if Nat.ltb 0 (length errors) then
    {| exitCode := 1;
       stdout := [];
       stderr := flat_map (fun d => map (fun m => m +:+ Js.NL) (messages d)) errors |}
  else
    let texts :=
      flat_map (fun x => match x with Diags _ => [] | Value l => l end)
               compilationResults in
    {| exitCode := 0;
       stdout := [Js.join (Js.NL +:+ Js.NL +:+ Js.NL)
                    (filter (fun s => Nat.ltb 0 (String.length s) = true) texts)
                  +:+ Js.NL];
       stderr := [] |}.

(** [main] from the settled pipeline promises on. *)
Definition main_join (when : nat -> nat)
    (compilations : list (outcome (orDiagnostics (list string)))) : outcome Run :=
  outcome_bind (Promise_all when compilations) (fun compilationResults =>
  Returned (main_report compilationResults)).

(** The pipelines of the modules work on files and directories of their
    own; the model runs them one after the other and keeps the order in
    which their promises settle in [when]. *)
Fixpoint pipelines {A} (ms : list (Async A)) (w : World) : list (outcome A) * World :=
  match ms with
  | [] => ([], w)
  | m :: ms' =>
      let (o, w1) := m w in
      let (os, w2) := pipelines ms' w1 in
      (o :: os, w2)
  end.

(** The promises [fileNames.map(f => compile(call_rollup, paths, f))]
    makes, settled. *)
Definition compilations (createProgram : string -> Program) (rollup : Rollup)
    (fileNames : list string) (w : World)
    : list (outcome (orDiagnostics (list string))) :=
  fst (pipelines
         (map (fun f => compile (call_rollup rollup) (createProgram f) f) fileNames) w).

(** [main(argv)], with what [ts.createProgram] and [rollup.rollup] answer
    and the settling order of the pipelines as parameters. *)
Definition main (createProgram : string -> Program) (rollup : Rollup)
    (when : nat -> nat) (argv : list string) (w : World) : outcome Run :=
  let fileNames := drop 2 argv in
  main_join when (compilations createProgram rollup fileNames w).

(* ================================================================== *)
(** ** Auxiliary definitions for the statements *)
(* ================================================================== *)

(** [map[comment] || Rights.NOT_SPECIFIED] for the comment of a tag. *)
Definition rights_of_comment (comment : option string) : Js.value :=
  Js.or (Js.get (list_to_map runAs_table) (default "" comment))
        (Rights_member NOT_SPECIFIED).

(** The record [storedProcedure] returns when there is one signature. *)
Definition descriptor (decl : FunctionDeclaration) (sig : Sig) (tag : JSDocTag)
    : StoredProcedure :=
  {| sp_name := decl_name decl;
     sp_params :=
       map (fun p => {| p_name := Js.toUpperCase (sym_name p);
                        p_type := mapToSQL (sym_type p) |})
           (drop 1 (sig_params sig));
     sp_returnType :=
       if String.eqb (sig_returnType sig) "void"
       then Js.VString "VARIANT NULL"
       else mapToSQL (sig_returnType sig);
     sp_rights := rights_of_comment (tag_comment tag) |}.

(** The entry script that imports the function of [decl] from the module
    emitted for [fileName] and calls it with the connection object and
    then the parameters after the first, each named by [arg]. *)
Definition entry_script (arg : Sym -> string) (fileName : string)
    (decl : FunctionDeclaration) (sig : Sig) : string :=
  "import {" +:+ decl_name decl +:+ "} from '../"
    +:+ Js.drop_extension fileName +:+ ".js" +:+ "'" +:+ Js.NL
    +:+ "__result = " +:+ decl_name decl +:+ "(" +:+ "snowflake"
    +:+ Js.join "" (map (fun p => ", " +:+ arg p) (drop 1 (sig_params sig)))
    +:+ ")".

(** The file [use.js] of the scratch directory after [call_rollup]. *)
Definition materialised (rollup : Rollup) (tmpDir fileName : string)
    (sp : StoredProcedure) (w : World) : option string :=
  w_files (snd (call_rollup rollup tmpDir fileName sp w)) !! (tmpDir +:+ "/use.js").

Definition statements_of {A} (x : orDiagnostics (list A)) : list A :=
  match x with
  | Diags _ => []
  | Value l => l
  end.

(** The writes to standard error for one module outcome. *)
Definition stderr_lines {A} (x : orDiagnostics A) : list string :=
  match x with
  | Diags d => map (fun m => m +:+ Js.NL) (messages d)
  | Value _ => []
  end.

Definition rejected {A} (p : outcome A) : Prop :=
  match p with
  | Thrown _ => True
  | Returned _ => False
  end.

(** [main] resumes only after every one of the promises has settled. *)
Definition waits_for_all {A} (when : nat -> nat) (ps : list (outcome A)) : Prop :=
  forall j, j < length ps -> when j <= Promise_all_settles when ps.

(** The values the pipelines of the modules named in [argv] returned. *)
Definition outcomes (createProgram : string -> Program) (rollup : Rollup)
    (argv : list string) (w : World) : list (orDiagnostics (list string)) :=
  omap fulfilled (compilations createProgram rollup (drop 2 argv) w).

(** The diagnostic line as the specification words it, to compare
    [diagnostics] with: [<file> (<line>,<col>): <message>], line and
    column counted from 1, when the diagnostic has a position, else the
    bare message. *)
Definition spec_diagnostic_line (d : TsDiagnostic) : string :=
  match d_file d with
  | Some (file, (line, character)) =>
      file +:+ " (" +:+ Js.number_toString (S line) +:+ ","
        +:+ Js.number_toString (S character) +:+ "): " +:+ d_messageText d
  | None => d_messageText d
  end.

(** The type check of a module fails with the diagnostics [ds]: the
    program has no source file for it, or the module has marked
    functions and its emit is skipped. *)
Inductive type_check_fails (program : Program) : list TsDiagnostic -> Prop :=
| no_source_file :
    prog_sourceFile program = None ->
    type_check_fails program (prog_preEmitDiagnostics program)
| emit_skipped (children : list Node) (sprocs : list StoredProcedure) :
    prog_sourceFile program = Some children ->
    storedProcedures children = Returned sprocs ->
    sprocs <> [] ->
    prog_emitSkipped program = true ->
    type_check_fails program
      (prog_preEmitDiagnostics program ++ prog_emitDiagnostics program).

(* ================================================================== *)
(** ** Sample inputs *)
(* ================================================================== *)

(** [example/output_message.ts] *)
Definition output_message : FunctionDeclaration :=
  {| decl_name := "output_message";
     decl_jsDoc :=
       [ tagged [ mkTag "sf_stored_procedure" None;
         mkTag "param" (Some "The message to return.");
         mkTag "returns" (Some "The input message.") ] ];
     decl_signatures :=
       [ {| sig_params := [ mkSym "snowflake" "" "Snowflake";
                            mkSym "message" "" "string" ];
            sig_returnType := "string";
            sig_doc := "Return the input message." |} ] |}.

(** A marked function with two overload signatures. *)
Definition overloaded : FunctionDeclaration :=
  {| decl_name := "lookUp";
     decl_jsDoc := [ tagged [ mkTag "sf_stored_procedure" (Some "owner") ] ];
     decl_signatures :=
       [ mkSig [ mkSym "snowflake" "" "Snowflake"; mkSym "key" "" "string" ] "string" "";
         mkSig [ mkSym "snowflake" "" "Snowflake"; mkSym "key" "" "number" ] "string" "" ] |}.

(** A marked function whose marker tag is followed by [comment], with one
    parameter of type [type] after the connection. *)
Definition marked (name comment type : string) : FunctionDeclaration :=
  {| decl_name := name;
     decl_jsDoc := [ tagged [ mkTag "sf_stored_procedure" (Some comment) ] ];
     decl_signatures :=
       [ mkSig [ mkSym "snowflake" "" "Snowflake"; mkSym "rowCount" "" type ] "void" "" ] |}.

Definition empty_world : World := mkWorld ∅ ∅ 0.

(** The one signature of [output_message]. *)
Definition output_message_sig : Sig :=
  mkSig [ mkSym "snowflake" "" "Snowflake"; mkSym "message" "" "string" ]
        "string" "Return the input message.".

(** A bundler run that goes through: one chunk and one asset. *)
Definition rollup_ok : Rollup :=
  fun _ _ =>
    Returned {| build_generate :=
                  Returned [ OutputChunk "__result = output_message(snowflake, MESSAGE);";
                             OutputAsset ];
                build_close := Returned tt |}.

(** [rollup.rollup] rejects: a relative import of the emitted module
    cannot be resolved. *)
Definition rollup_unresolved : Rollup :=
  fun _ _ => Thrown (Error "Could not resolve ./helper from output_message.js").

(** [rollup.rollup] resolves and [bundle.generate] rejects. *)
Definition rollup_generate_fails : Rollup :=
  fun _ _ =>
    Returned {| build_generate := Thrown (Error "Invalid value for option output.file");
                build_close := Returned tt |}.

Definition program_output_message : Program :=
  {| prog_sourceFile := Some [ OtherNode; FunctionDeclarationNode output_message ];
     prog_preEmitDiagnostics := [];
     prog_emitSkipped := false;
     prog_emitDiagnostics := [];
     prog_emitted :=
       [ ("output_message.js",
          "export function output_message(snowflake, message) { return message; }") ] |}.

Definition program_overloaded : Program :=
  {| prog_sourceFile := Some [ FunctionDeclarationNode overloaded ];
     prog_preEmitDiagnostics := [];
     prog_emitSkipped := false;
     prog_emitDiagnostics := [];
     prog_emitted :=
       [ ("overloaded.js", "export function lookUp(snowflake, key) { return key; }") ] |}.

(** A module with a type error: the emit is skipped, its diagnostics
    repeat the pre-emit ones, and nothing is written. *)
Definition program_type_error : Program :=
  {| prog_sourceFile := Some [ FunctionDeclarationNode output_message ];
     prog_preEmitDiagnostics :=
       [ mkTsDiagnostic (Some ("broken.ts", (18, 4)))
           "Type 'number' is not assignable to type 'string'." ];
     prog_emitSkipped := true;
     prog_emitDiagnostics :=
       [ mkTsDiagnostic (Some ("broken.ts", (18, 4)))
           "Type 'number' is not assignable to type 'string'." ];
     prog_emitted := [] |}.

(** A second module with the same declarations as [output_message.ts]. *)
Definition program_other : Program :=
  {| prog_sourceFile := Some [ OtherNode; FunctionDeclarationNode output_message ];
     prog_preEmitDiagnostics := [];
     prog_emitSkipped := false;
     prog_emitDiagnostics := [];
     prog_emitted :=
       [ ("other.js",
          "export function output_message(snowflake, message) { return message; }") ] |}.

Definition createProgram_sample (fileName : string) : Program :=
  if String.eqb fileName "overloaded.ts" then program_overloaded
  else if String.eqb fileName "broken.ts" then program_type_error
  else if String.eqb fileName "other.ts" then program_other
  else program_output_message.

(** The settling order in which module [i] settles at instant [i]. *)
Definition in_turn (i : nat) : nat := i.

(* ================================================================== *)
(** ** Type predicates for builtins, on untyped values *)
(* ================================================================== *)

Module Dyn.

(** A JavaScript value as the type predicates see it: a primitive, an
    array, or an object literal with its properties in source order. *)
#[local] Unset Elimination Schemes.
Inductive dyn : Type :=
| Undefined
| Null
| Boolean (b : bool)
| Number (n : nat)
| Str (s : string)
| Arr (items : list dyn)
| Obj (props : list (string * dyn)).
#[local] Set Elimination Schemes.

(** [typeof x] *)
Definition typeof (x : dyn) : string :=
  match x with
  | Undefined => "undefined"
  | Null => "object"
  | Boolean _ => "boolean"
  | Number _ => "number"
  | Str _ => "string"
  | Arr _ => "object"
  | Obj _ => "object"
  end.

Definition isString (x : dyn) : bool := String.eqb (typeof x) "string".

(** [Array.isArray(x) && x.every(isString)] *)
Definition isStringArray (x : dyn) : bool :=
  match x with
  | Arr items => forallb isString items
  | _ => false
  end.

(** The own property [k] of an object literal: the last entry for the
    key wins.  An entry [__proto__: v] defines no own property; it sets
    the prototype. *)
Fixpoint own (props : list (string * dyn)) (k : string) : option dyn :=
  match props with
  | [] => None
  | (k', v) :: rest =>
      match own rest k with
      | Some v' => Some v'
      | None =>
          if String.eqb k' "__proto__" then None
          else if String.eqb k' k then Some v else None
      end
  end.

(** The property [k] of [x], own or inherited: an object literal has it
    when it is an own property, or else when the object its [__proto__]
    entry names has it.  Without such an entry the prototype is
    [Object.prototype], and for an array it is [Array.prototype]; the
    model reads from them no property: [messages], the one property the
    code reads, is not among theirs. *)
Fixpoint lookup (x : dyn) (k : string) {struct x} : option dyn :=
  match x with
  | Obj props =>
      match own props k with
      | Some v => Some v
      | None =>
          (fix inherited (entries : list (string * dyn)) : option dyn :=
             match entries with
             | [] => None
             | (k', v) :: rest =>
                 if String.eqb k' "__proto__" then lookup v k else inherited rest
             end) props
      end
  | _ => None
  end.

(** [x.messages]: reading a property of [undefined] or [null] throws;
    otherwise it is the property, own or inherited, or [undefined]. *)
Definition get_messages (x : dyn) : outcome dyn :=
  match x with
  | Undefined => Thrown (TypeError_undefined "messages")
  | Null => Thrown (TypeError_null "messages")
  | _ => Returned (default Undefined (lookup x "messages"))
  end.

(** [typeof x === 'object' && isStringArray(x.messages)] *)
Definition isDiagnostics (x : dyn) : outcome bool :=
  if String.eqb (typeof x) "object"
  then outcome_bind (get_messages x) (fun m => Returned (isStringArray m))
  else Returned false.

(** The values [pack] and [main] apply the test to. *)
Definition of_strings (l : list string) : dyn := Arr (map Str l).

Definition of_Diagnostics (d : Diagnostics) : dyn :=
  Obj [ ("messages", of_strings (messages d)) ].

Definition of_bundle (x : orDiagnostics string) : dyn :=
  match x with
  | Value code => Str code
  | Diags d => of_Diagnostics d
  end.

Definition of_compilation (x : orDiagnostics (list string)) : dyn :=
  match x with
  | Value codes => of_strings codes
  | Diags d => of_Diagnostics d
  end.

End Dyn.

(* ================================================================== *)
(** ** example/result-set.ts *)
(* ================================================================== *)

Module ResultSets.

(** A column value; [Null] is also the [null] of JavaScript. *)
Inductive cell : Type :=
| Null
| Num (n : nat)
| Text (s : string).

(** A [ResultSet]: the number of columns, the row the cursor is on, if
    any, and the rows after it. *)
Record ResultSet : Type := mkResultSet {
  rs_columns : nat;
  rs_current : option (list cell);
  rs_rest : list (list cell)
}.

(** The result set [execute] hands out: the cursor is before the first
    row. *)
Definition fresh (columns : nat) (rows : list (list cell)) : ResultSet :=
  {| rs_columns := columns; rs_current := None; rs_rest := rows |}.

(** [rs.next()]: whether there is a next row, and the result set with the
    cursor moved. *)
Definition next (rs : ResultSet) : bool * ResultSet :=
  match rs_rest rs with
  | r :: rest =>
      (true, {| rs_columns := rs_columns rs; rs_current := Some r; rs_rest := rest |})
  | [] =>
      (false, {| rs_columns := rs_columns rs; rs_current := None; rs_rest := [] |})
  end.

Definition getColumnCount (row : ResultSet) : nat := rs_columns row.

(** The errors of the platform for a read without a current row and for
    a column that does not exist; their wording stands in for the
    platform's. *)
Definition no_current_row : JsError := Error "no current row".

Definition no_such_column (col : nat) : JsError :=
  Error ("no column " +:+ Js.number_toString col).

(** [row.getColumnValue(col)], columns counted from 1; it throws without
    a current row or for a column that does not exist. *)
Definition getColumnValue (row : ResultSet) (col : nat) : outcome cell :=
  match rs_current row with
  | None => Thrown no_current_row
  | Some r =>
      match col with
      | 0 => Thrown (no_such_column 0)
      | S i =>
          match r !! i with
          | Some v => Returned v
          | None => Thrown (no_such_column col)
          end
      end
  end.

(** What [execute] answers for a statement and its binds. *)
Definition Snowflake : Type := string -> option (list cell) -> outcome ResultSet.

(** [[...Array(n).keys()].map(x => row.getColumnValue(x + 1))] *)
Definition rowToArray (row : ResultSet) : outcome (list cell) :=
  outcome_map (fun x => getColumnValue row (x + 1)) (seq 0 (getColumnCount row)).

(** One step of the iterator of [resultSetIter]: the value, which is the
    result set itself after its [next()], and [done]. *)
Definition resultSetIter_next (result_set : ResultSet) : ResultSet * bool :=
  let (more, result_set') := next result_set in
  (result_set', negb more).

(** The error standing for a loop cut off by its bound. *)
Definition cut_off : JsError := mkError "" "".

(** [Array.from(resultSetIter(result_set), mapFn)]: the iterator is
    stepped until it is done and [mapFn] is applied to each value as it
    is produced.  [bound] bounds the number of steps. *)
Fixpoint Array_from {A} (bound : nat) (result_set : ResultSet)
    (mapFn : ResultSet -> outcome A) : outcome (list A) :=
  match bound with
  | 0 => Thrown cut_off
  | S bound' =>
      let (value, done) := resultSetIter_next result_set in
      if done then Returned []
      else
        outcome_bind (mapFn value) (fun y =>
        outcome_bind (Array_from bound' value mapFn) (fun ys =>
        Returned (y :: ys)))
  end.

(** A result set has finitely many rows: one step more than the rows
    left is enough. *)
Definition resultsToGrid (result_set : ResultSet) : outcome (list (list cell)) :=
  Array_from (S (length (rs_rest result_set))) result_set rowToArray.

Definition fetchAll (snowflake : Snowflake) (sqlText : string)
    (binds : option (list cell)) : outcome (list (list cell)) :=
  outcome_bind (snowflake sqlText binds) resultsToGrid.

Definition fetchCell (snowflake : Snowflake) (sqlText : string)
    (binds : option (list cell)) : outcome cell :=
  outcome_bind (snowflake sqlText binds) (fun results =>
  let (more, results') := next results in
  if more then getColumnValue results' 1 else Returned Null).

Definition fetchOne (snowflake : Snowflake) (sqlText : string)
    (binds : option (list cell)) : outcome (option (list cell)) :=
  outcome_bind (snowflake sqlText binds) (fun result_set =>
  let (more, result_set') := next result_set in
  if more
  then outcome_bind (rowToArray result_set') (fun row => Returned (Some row))
  else Returned None).

(** A connection that answers every statement with the table [rows] of
    [columns] columns. *)
Definition table (columns : nat) (rows : list (list cell)) : Snowflake :=
  fun _ _ => Returned (fresh columns rows).

End ResultSets.

(* ================================================================== *)
(** ** Auxiliary definitions for the further statements *)
(* ================================================================== *)

(** [s] with every line feed replaced by [sep]. *)
Fixpoint replace_line_feeds (sep : string) (s : string) : string :=
  match s with
  | EmptyString => EmptyString
  | String c s' =>
      if Ascii.eqb c Js.LF then sep +:+ replace_line_feeds sep s'
      else String c (replace_line_feeds sep s')
  end.

(** The characters of a string. *)
Fixpoint chars (s : string) : list ascii :=
  match s with
  | EmptyString => []
  | String c s' => c :: chars s'
  end.

(** An ASCII lower-case letter. *)
Definition is_lower (c : ascii) : bool :=
  Nat.leb 97 (nat_of_ascii c) && Nat.leb (nat_of_ascii c) 122.

(** The scan of the children selects no function declaration, and meets
    no doc comment without tags on its way. *)
Definition no_procedures (program : Program) : Prop :=
  exists children,
    prog_sourceFile program = Some children /\
    Forall (fun n => isStoredProcedure n = Returned false) children.

(** The scan of the children goes through: [isStoredProcedure] throws
    for none of them. *)
Definition scannable (children : list Node) : Prop :=
  Forall (fun n => exists b, isStoredProcedure n = Returned b) children.

(** Every marked function declaration among the children has exactly one
    call signature. *)
Definition unambiguous (children : list Node) : Prop :=
  Forall (fun decl => eligible decl = true -> length (decl_signatures decl) = 1)
         (omap declaration_of children).

(** A string of ASCII characters. *)
Definition ascii_only (s : string) : Prop :=
  Forall (fun c => nat_of_ascii c < 128) (chars s).

(** A module with two marked functions and an unmarked one between. *)
Definition two_procedures : list Node :=
  [ FunctionDeclarationNode (marked "current_t" "" "string");
    OtherNode;
    FunctionDeclarationNode
      {| decl_name := "fetchCell"; decl_jsDoc := [ tagged [ mkTag "param" (Some "sqlText") ] ];
         decl_signatures := [] |};
    FunctionDeclarationNode (marked "current_v" "owner" "number") ].

(** A module without marked functions that does not type-check. *)
Definition program_plain_broken : Program :=
  {| prog_sourceFile := Some [ OtherNode;
                               FunctionDeclarationNode
                                 {| decl_name := "avg";
                                    decl_jsDoc := [ tagged [ mkTag "param" (Some "xs") ] ];
                                    decl_signatures := [] |} ];
     prog_preEmitDiagnostics :=
       [ mkTsDiagnostic (Some ("avg.ts", (16, 4))) "Cannot find name 'xz'." ];
     prog_emitSkipped := true;
     prog_emitDiagnostics :=
       [ mkTsDiagnostic (Some ("avg.ts", (16, 4))) "Cannot find name 'xz'." ];
     prog_emitted := [] |}.

(** A bundler run in which [bundle.close] rejects. *)
Definition rollup_close_fails : Rollup :=
  fun _ _ =>
    Returned {| build_generate := Returned [ OutputChunk "__result = f(snowflake);" ];
                build_close := Thrown (Error "close failed") |}.

(** A table of two columns. *)
Definition sample_rows : list (list ResultSets.cell) :=
  [ [ ResultSets.Num 1; ResultSets.Num 2 ]; [ ResultSets.Num 3; ResultSets.Num 4 ] ].

(* ================================================================== *)
(** ** Strings *)
(* ================================================================== *)

Lemma append_assoc (s1 s2 s3 : string) :
  (s1 +:+ s2) +:+ s3 = s1 +:+ s2 +:+ s3.
Proof.
  induction s1 as [|c s1 IH]; [reflexivity|].
  exact (f_equal (String c) IH).
Qed.

Lemma append_empty_r (s : string) : s +:+ "" = s.
Proof.
  induction s as [|c s IH]; [reflexivity|].
  exact (f_equal (String c) IH).
Qed.

(* ================================================================== *)
(** ** Property reads on the lookup tables *)
(* ================================================================== *)

(** Case analysis on a key known to be one of the finitely many keys of a
    table: [tac] closes the goal for each key. *)
Ltac for_each_key H tac :=
  cbn in H;
  repeat (apply elem_of_cons in H as [->|H]; [tac|]);
  now apply elem_of_nil in H.

Lemma get_own (tbl : list (string * Js.value)) (k : string) (v : Js.value) :
  (list_to_map tbl : gmap string Js.value) !! k = Some v ->
  Js.get (list_to_map tbl) k = v.
Proof. intros H. unfold Js.get. now rewrite H. Qed.

Lemma get_absent (tbl : list (string * Js.value)) (k : string) :
  k ∉ tbl.*1 ->
  Js.Object_prototype !! k = None ->
  Js.get (list_to_map tbl) k = Js.VUndefined.
Proof.
  intros Hk Hp. unfold Js.get.
  rewrite (not_elem_of_list_to_map_1 _ _ Hk), Hp. reflexivity.
Qed.

Lemma get_inherited (tbl : list (string * Js.value)) (k : string) (v : Js.value) :
  k ∉ tbl.*1 ->
  Js.Object_prototype !! k = Some v ->
  Js.get (list_to_map tbl) k = v.
Proof.
  intros Hk Hp. unfold Js.get.
  rewrite (not_elem_of_list_to_map_1 _ _ Hk), Hp. reflexivity.
Qed.

(** A key either is no property of [Object.prototype] or is one of the
    twelve names of the table. *)
Lemma Object_prototype_cases (k : string) :
  Js.Object_prototype !! k = None \/ k ∈ Js.Object_prototype_table.*1.
Proof.
  destruct (Js.Object_prototype !! k) as [v|] eqn:E; [right | now left].
  apply elem_of_list_to_map_2 in E.
  apply list_elem_of_fmap. exists (k, v). now split.
Qed.

Lemma Object_prototype_truthy (k : string) (v : Js.value) :
  Js.Object_prototype !! k = Some v -> Js.truthy v = true.
Proof.
  intros E. apply elem_of_list_to_map_2 in E.
  unfold Js.Object_prototype_table in E.
  repeat (apply elem_of_cons in E as [E|E]; [injection E as _ ->; reflexivity|]).
  now apply elem_of_nil in E.
Qed.

(** Away from the names [Object.prototype] defines, [mapToSQL] answers a
    non-empty string, and [VARIANT] for an unrecognised name. *)
Lemma mapToSQL_unrecognised (dataType : string) :
  dataType ∉ mapToSQL_table.*1 ->
  Js.Object_prototype !! dataType = None ->
  mapToSQL dataType = Js.VString "VARIANT".
Proof.
  intros Hk Hp. unfold mapToSQL.
  rewrite (get_absent _ _ Hk Hp). reflexivity.
Qed.

Lemma mapToSQL_recognised (dataType : string) :
  dataType ∈ mapToSQL_table.*1 ->
  exists t, mapToSQL dataType = Js.VString t /\ t <> "".
Proof.
  intros Hk. unfold mapToSQL_table in Hk.
  for_each_key Hk ltac:(eexists; split; [vm_compute; reflexivity | discriminate]).
Qed.

Lemma mapToSQL_string (dataType : string) :
  Js.Object_prototype !! dataType = None ->
  exists t, mapToSQL dataType = Js.VString t /\ t <> "".
Proof.
  intros Hp.
  destruct (decide (dataType ∈ mapToSQL_table.*1)) as [Hk|Hk].
  - now apply mapToSQL_recognised.
  - exists "VARIANT". split; [now apply mapToSQL_unrecognised | discriminate].
Qed.

(** On a name [Object.prototype] defines, [mapToSQL] answers the inherited
    member. *)
Lemma mapToSQL_inherited (dataType : string) (v : Js.value) :
  Js.Object_prototype !! dataType = Some v ->
  mapToSQL dataType = v.
Proof.
  intros Hp. unfold mapToSQL.
  assert (Hk : dataType ∉ mapToSQL_table.*1).
  { intros Hk. unfold mapToSQL_table in Hk.
    for_each_key Hk ltac:(vm_compute in Hp; discriminate). }
  rewrite (get_inherited _ _ _ Hk Hp).
  unfold Js.or. now rewrite (Object_prototype_truthy _ _ Hp).
Qed.

(* ================================================================== *)
(** ** The descriptor of an eligible declaration *)
(* ================================================================== *)

Lemma eligible_tag (decl : FunctionDeclaration) :
  eligible decl = true ->
  exists tag, storedProcedureTag decl = Returned (Some tag) /\ is_marker tag = true.
Proof.
  unfold eligible, isStoredProcedure, storedProcedureTag.
  induction (jsTags decl) as [|[t|] ts IH]; cbn; [discriminate | | discriminate].
  destruct (is_marker t) eqn:E; [intros _; eauto | exact IH].
Qed.

Lemma storedProcedure_single (decl : FunctionDeclaration) (sig : Sig) :
  eligible decl = true ->
  decl_signatures decl = [sig] ->
  exists tag,
    storedProcedureTag decl = Returned (Some tag) /\ is_marker tag = true /\
    storedProcedure decl = Returned (descriptor decl sig tag).
Proof.
  intros He Hs. destruct (eligible_tag decl He) as (tag & Ht & Hm).
  exists tag. repeat split; trivial.
  unfold storedProcedure, descriptor, rights_of_comment. rewrite Hs, Ht. cbn.
  destruct (tag_comment tag); destruct (String.eqb (sig_returnType sig) "void");
    reflexivity.
Qed.

Lemma storedProcedure_ambiguous (decl : FunctionDeclaration) :
  length (decl_signatures decl) <> 1 ->
  storedProcedure decl =
    Thrown (Error ("Function " +:+ decl_name decl +:+ " has "
                     +:+ Js.number_toString (length (decl_signatures decl))
                     +:+ " signatures ?!")).
Proof.
  intros Hn. unfold storedProcedure.
  destruct (decl_signatures decl) as [|s [|s' l]]; cbn in *; congruence.
Qed.

(* ================================================================== *)
(** ** The rights clause *)
(* ================================================================== *)

Lemma rights_clause_caller :
  sqlRights (rights_of_comment (Some "caller")) = " execute as CALLER".
Proof. vm_compute. reflexivity. Qed.

Lemma rights_clause_owner :
  sqlRights (rights_of_comment (Some "owner")) = " execute as OWNER".
Proof. vm_compute. reflexivity. Qed.

Lemma rights_clause_missing : sqlRights (rights_of_comment None) = "".
Proof. vm_compute. reflexivity. Qed.

(** A comment that is neither of the two keywords nor a name defined by
    [Object.prototype] yields no clause. *)
Lemma rights_clause_other (comment : string) :
  comment <> "caller" -> comment <> "owner" ->
  Js.Object_prototype !! comment = None ->
  sqlRights (rights_of_comment (Some comment)) = "".
Proof.
  intros Hc Ho Hp. unfold rights_of_comment. cbn [default].
  rewrite get_absent; [reflexivity | | exact Hp].
  cbn. intros H. apply elem_of_cons in H as [H|H]; [congruence|].
  apply elem_of_cons in H as [H|H]; [congruence|]. now apply elem_of_nil in H.
Qed.

(** A comment that is a name defined by [Object.prototype] yields a
    clause that names no rights mode. *)
Lemma rights_clause_inherited (comment : string) :
  Js.Object_prototype !! comment <> None ->
  sqlRights (rights_of_comment (Some comment)) = " execute as undefined".
Proof.
  intros Hp. destruct (Object_prototype_cases comment) as [H|H]; [congruence|].
  unfold Js.Object_prototype_table in H.
  for_each_key H ltac:(vm_compute; reflexivity).
Qed.

(* ================================================================== *)
(** ** Type mapper *)
(* ================================================================== *)

(** C5 (the code departs from it).  The type mapper is specified to
    answer a SQL type name for every source type name and [VARIANT] for
    every unrecognised one.  The table is an object literal read with
    [map[dataType]]: for the type name [toString], which is none of the
    recognised keys, the read finds the member of that name inherited
    from [Object.prototype], a function object, which is truthy and is
    returned as it is.  The result is neither [VARIANT] nor a string, and
    the parameter renders as the text of a native function. *)
Theorem mapToSQL_toString_not_a_type :
  ("toString" ∉ mapToSQL_table.*1) /\
  mapToSQL "toString" = Js.VNative "toString" /\
  mapToSQL "toString" <> Js.VString "VARIANT" /\
  (forall t, mapToSQL "toString" <> Js.VString t) /\
  exists sp,
    storedProcedure (marked "f" "" "toString") = Returned sp /\
    sqlSignature sp =
      "f(ROWCOUNT function toString() { [native code] }) returns VARIANT NULL".
Proof.
  split; [|split; [|split; [|split]]].
  - vm_compute. intros H.
    repeat (apply elem_of_cons in H as [H|H]; [discriminate|]).
    now apply elem_of_nil in H.
  - vm_compute. reflexivity.
  - vm_compute. discriminate.
  - intros t. vm_compute. discriminate.
  - eexists. split; vm_compute; reflexivity.
Qed.

(* ================================================================== *)
(** ** Signature extractor *)
(* ================================================================== *)

(** C6.  For an eligible declaration whose type resolves to zero or to two
    or more call signatures, [storedProcedure] throws an error whose
    message is [Function <name> has <count> signatures ?!], naming the
    declaration and the count; for exactly one signature it returns a
    descriptor and throws nothing. *)
Theorem signature_count_is_checked (decl : FunctionDeclaration) :
  eligible decl = true ->
  (length (decl_signatures decl) <> 1 ->
   storedProcedure decl =
     Thrown (Error ("Function " +:+ decl_name decl +:+ " has "
                      +:+ Js.number_toString (length (decl_signatures decl))
                      +:+ " signatures ?!")))
  /\
  (length (decl_signatures decl) = 1 ->
   exists sp, storedProcedure decl = Returned sp).
Proof.
  intros He. split.
  - apply storedProcedure_ambiguous.
  - intros Hl. destruct (decl_signatures decl) as [|sig [|sig' l]] eqn:Hs;
      cbn in Hl; try discriminate.
    destruct (storedProcedure_single decl sig He Hs) as (tag & _ & _ & Hsp).
    eauto.
Qed.

Lemma signature_count_is_checked_witness :
  eligible overloaded = true /\
  storedProcedure overloaded = Thrown (Error "Function lookUp has 2 signatures ?!") /\
  exists sp, storedProcedure output_message = Returned sp.
Proof.
  split; [reflexivity|]. split.
  - apply (proj1 (signature_count_is_checked overloaded eq_refl)).
    cbn. lia.
  - apply (proj2 (signature_count_is_checked output_message eq_refl)).
    reflexivity.
Defined.

(* ================================================================== *)
(** ** Procedure descriptor builder and SQL signature *)
(* ================================================================== *)

(** C7.  For an eligible declaration with its one call signature, the
    descriptor has one parameter for each signature parameter after the
    first, in order, and none for the first; each rendered parameter name
    is the upper-cased source name, and the rendered parameter list is
    built from exactly these. *)
Theorem first_parameter_is_reserved (decl : FunctionDeclaration) (sig : Sig) :
  eligible decl = true ->
  decl_signatures decl = [sig] ->
  exists sp,
    storedProcedure decl = Returned sp /\
    length (sp_params sp) = length (sig_params sig) - 1 /\
    map p_name (sp_params sp) =
      map (fun p => Js.toUpperCase (sym_name p)) (drop 1 (sig_params sig)) /\
    sqlSignature sp =
      decl_name decl +:+ "("
        +:+ Js.join ", "
              (map (fun p => Js.toUpperCase (sym_name p) +:+ " "
                               +:+ Js.toString (mapToSQL (sym_type p)))
                   (drop 1 (sig_params sig)))
        +:+ ")" +:+ " returns " +:+ Js.toString (sp_returnType sp).
Proof.
  intros He Hs.
  destruct (storedProcedure_single decl sig He Hs) as (tag & _ & _ & Hsp).
  exists (descriptor decl sig tag). split; [exact Hsp|].
  unfold descriptor. cbn [sp_params sp_name sp_returnType].
  split; [|split].
  - rewrite length_map, length_drop. reflexivity.
  - rewrite map_map. reflexivity.
  - unfold sqlSignature. cbn [sp_params sp_name sp_returnType].
    rewrite map_map, !append_assoc. reflexivity.
Qed.

Lemma first_parameter_is_reserved_witness :
  exists sp,
    storedProcedure output_message = Returned sp /\
    length (sp_params sp) = 1 /\
    map p_name (sp_params sp) = ["MESSAGE"] /\
    sqlSignature sp = "output_message(MESSAGE STRING) returns STRING".
Proof.
  destruct (first_parameter_is_reserved output_message
              (mkSig [ mkSym "snowflake" "" "Snowflake"; mkSym "message" "" "string" ]
                     "string" "Return the input message.")
              eq_refl eq_refl) as (sp & Hsp & Hl & Hn & Hq).
  exists sp. repeat split; [exact Hsp | exact Hl | exact Hn |].
  rewrite Hq. injection Hsp as <-. reflexivity.
Defined.

(* ================================================================== *)
(** ** Rights resolver and rights clause *)
(* ================================================================== *)

Lemma rights_clause_caller_iff (comment : option string) :
  sqlRights (rights_of_comment comment) = " execute as CALLER"
  <-> comment = Some "caller".
Proof.
  destruct comment as [c|]; [|rewrite rights_clause_missing; split; discriminate].
  destruct (decide (c = "caller")) as [->|Hc];
    [rewrite rights_clause_caller; tauto|].
  destruct (decide (c = "owner")) as [->|Ho];
    [rewrite rights_clause_owner; split; [discriminate | congruence]|].
  destruct (Js.Object_prototype !! c) as [v|] eqn:Hp.
  - rewrite rights_clause_inherited by congruence. split; [discriminate | congruence].
  - rewrite rights_clause_other by assumption. split; [discriminate | congruence].
Qed.

Lemma rights_clause_owner_iff (comment : option string) :
  sqlRights (rights_of_comment comment) = " execute as OWNER"
  <-> comment = Some "owner".
Proof.
  destruct comment as [c|]; [|rewrite rights_clause_missing; split; discriminate].
  destruct (decide (c = "owner")) as [->|Ho];
    [rewrite rights_clause_owner; tauto|].
  destruct (decide (c = "caller")) as [->|Hc];
    [rewrite rights_clause_caller; split; [discriminate | congruence]|].
  destruct (Js.Object_prototype !! c) as [v|] eqn:Hp.
  - rewrite rights_clause_inherited by congruence. split; [discriminate | congruence].
  - rewrite rights_clause_other by assumption. split; [discriminate | congruence].
Qed.

(** C9 (the code departs from it).  The clause is [ execute as CALLER]
    exactly for the comment [caller] and [ execute as OWNER] exactly for
    [owner] (the two lemmas above), but it is not absent for every other
    comment: [runAs] reads its table with [map[comment]], so for the
    comment [toString] it answers the function inherited from
    [Object.prototype] instead of [NOT_SPECIFIED], and the statement is
    rendered with the clause [ execute as undefined]. *)
Theorem rights_clause_for_toString :
  exists sp,
    storedProcedure (marked "f" "toString" "number") = Returned sp /\
    sp_rights sp = Js.VNative "toString" /\
    sqlRights (sp_rights sp) = " execute as undefined" /\
    String.prefix
      "create or replace procedure f(ROWCOUNT NUMBER) returns VARIANT NULL language javascript execute as undefined as $$"
      (spCode sp "__result = f(snowflake, ROWCOUNT);") = true.
Proof.
  eexists. split; [vm_compute; reflexivity|].
  repeat split; vm_compute; reflexivity.
Qed.

(* ================================================================== *)
(** ** SQL template renderer *)
(* ================================================================== *)

(** C10.  For an eligible declaration with its one call signature, the
    descriptor carries the declaration's identifier unchanged, and the
    rendered statement opens with [create or replace procedure ] followed
    by that identifier and the opening parenthesis: the name is never
    upper-cased. *)
Theorem procedure_name_keeps_its_case (decl : FunctionDeclaration) :
  eligible decl = true ->
  length (decl_signatures decl) = 1 ->
  exists sp,
    storedProcedure decl = Returned sp /\
    sp_name sp = decl_name decl /\
    forall bundle, exists rest,
      spCode sp bundle =
        "create or replace procedure " +:+ decl_name decl +:+ "(" +:+ rest.
Proof.
  intros He Hl.
  destruct (decl_signatures decl) as [|sig [|sig' l]] eqn:Hs; cbn in Hl;
    try discriminate.
  destruct (storedProcedure_single decl sig He Hs) as (tag & _ & _ & Hsp).
  exists (descriptor decl sig tag). split; [exact Hsp|]. split; [reflexivity|].
  intros bundle. unfold spCode, sqlSignature. cbn [sp_name descriptor].
  rewrite !append_assoc. eexists. reflexivity.
Qed.

Lemma procedure_name_keeps_its_case_witness :
  Js.toUpperCase "getRowCount" <> "getRowCount" /\
  exists sp,
    storedProcedure (marked "getRowCount" "caller" "number") = Returned sp /\
    sp_name sp = "getRowCount" /\
    forall bundle, exists rest,
      spCode sp bundle = "create or replace procedure getRowCount(" +:+ rest.
Proof.
  split; [vm_compute; discriminate|].
  exact (procedure_name_keeps_its_case (marked "getRowCount" "caller" "number")
           eq_refl eq_refl).
Defined.

(* ================================================================== *)
(** ** One call of the bundling orchestrator *)
(* ================================================================== *)

Section CallRollup.

Variable rollup : Rollup.
Variables tmpDir fileName : string.
Variable sp : StoredProcedure.
Variable w : World.

(** The files on disk when [rollup.rollup] is called. *)
Let files : gmap string string :=
  <[ tmpDir +:+ "/use.js" := use_js fileName sp ]> (w_files w).

(** Whatever the bundler does, [call_rollup] leaves [use.js] written. *)
Lemma call_rollup_files :
  w_files (snd (call_rollup rollup tmpDir fileName sp w)) = files.
Proof.
  unfold call_rollup, bind, writeFile, try_catch_finally, lift, ret. cbn.
  destruct (rollup _ _) as [b|e]; [|reflexivity]. cbn.
  destruct (build_generate b) as [out|e]; cbn;
    destruct (build_close b) as [[]|e']; reflexivity.
Qed.

(** How [call_rollup] ends, by how the three bundler calls end. *)
Lemma call_rollup_outcome :
  fst (call_rollup rollup tmpDir fileName sp w) =
    match rollup (tmpDir +:+ "/use.js") files with
    | Thrown e => Thrown e
    | Returned b =>
        match build_close b with
        | Thrown e => Thrown e
        | Returned _ =>
            match build_generate b with
            | Returned output => Returned (Value (Js.join "" (omap isChunk output)))
            | Thrown e => Returned (Diags {| messages := [error_toString e] |})
            end
        end
    end.
Proof.
  unfold call_rollup, bind, writeFile, try_catch_finally, lift, ret. cbn.
  destruct (rollup _ _) as [b|e]; [|reflexivity]. cbn.
  destruct (build_generate b) as [out|e]; cbn;
    destruct (build_close b) as [[]|e']; reflexivity.
Qed.

(** An error of [bundle.generate] comes back as diagnostics. *)
Lemma call_rollup_generate_error (b : RollupBuild) (e : JsError) :
  rollup (tmpDir +:+ "/use.js") files = Returned b ->
  build_generate b = Thrown e ->
  build_close b = Returned tt ->
  fst (call_rollup rollup tmpDir fileName sp w) =
    Returned (Diags {| messages := [error_toString e] |}).
Proof.
  intros Hr Hg Hc. rewrite call_rollup_outcome, Hr, Hc, Hg. reflexivity.
Qed.

(** An error of [rollup.rollup] is thrown on. *)
Lemma call_rollup_rollup_error (e : JsError) :
  rollup (tmpDir +:+ "/use.js") files = Thrown e ->
  fst (call_rollup rollup tmpDir fileName sp w) = Thrown e.
Proof.
  intros Hr. rewrite call_rollup_outcome, Hr. reflexivity.
Qed.

(** [call_rollup] neither makes nor removes a directory. *)
Lemma call_rollup_dirs :
  w_dirs (snd (call_rollup rollup tmpDir fileName sp w)) = w_dirs w.
Proof.
  unfold call_rollup, bind, writeFile, try_catch_finally, lift, ret. cbn.
  destruct (rollup _ _) as [b|e]; [|reflexivity]. cbn.
  destruct (build_generate b) as [out|e]; cbn;
    destruct (build_close b) as [[]|e']; reflexivity.
Qed.

End CallRollup.

(* ================================================================== *)
(** ** Bundling orchestrator: the entry script *)
(* ================================================================== *)

Lemma use_js_descriptor (fileName : string) (decl : FunctionDeclaration)
    (sig : Sig) (tag : JSDocTag) :
  use_js fileName (descriptor decl sig tag) =
    entry_script (fun p => Js.toUpperCase (sym_name p)) fileName decl sig.
Proof.
  unfold use_js, entry_script, descriptor. cbn [sp_name sp_params].
  rewrite map_map, !append_assoc. reflexivity.
Qed.

(** C1, amended.  For an eligible declaration with its one call signature,
    the entry script [call_rollup] writes to [use.js] imports the function
    from the emitted module and assigns to [__result] the call of the
    function on [snowflake] followed by the parameters after the first,
    in declaration order, each referenced by the upper-cased name it has
    as a SQL parameter. *)
Theorem entry_script_uses_sql_names (decl : FunctionDeclaration) (sig : Sig)
    (rollup : Rollup) (tmpDir fileName : string) (w : World) :
  eligible decl = true ->
  decl_signatures decl = [sig] ->
  exists sp,
    storedProcedure decl = Returned sp /\
    materialised rollup tmpDir fileName sp w =
      Some (entry_script (fun p => Js.toUpperCase (sym_name p)) fileName decl sig).
Proof.
  intros He Hs.
  destruct (storedProcedure_single decl sig He Hs) as (tag & _ & _ & Hsp).
  exists (descriptor decl sig tag). split; [exact Hsp|].
  unfold materialised. rewrite call_rollup_files. cbn. rewrite lookup_insert_eq.
  now rewrite use_js_descriptor.
Qed.

Lemma entry_script_uses_sql_names_witness :
  exists sp,
    storedProcedure output_message = Returned sp /\
    materialised rollup_ok "temp-0" "output_message.ts" sp empty_world =
      Some ("import {output_message} from '../output_message.js'" +:+ Js.NL
              +:+ "__result = output_message(snowflake, MESSAGE)").
Proof.
  exact (entry_script_uses_sql_names output_message output_message_sig
           rollup_ok "temp-0" "output_message.ts" empty_world eq_refl eq_refl).
Defined.

(** C1 as stated fails: for [output_message] the script written to
    [use.js] does not reference the parameter by its source name
    [message]. *)
Lemma entry_script_source_names_refuted :
  ~ (forall sp,
       storedProcedure output_message = Returned sp ->
       materialised rollup_ok "temp-0" "output_message.ts" sp empty_world =
         Some (entry_script sym_name "output_message.ts"
                 output_message output_message_sig)).
Proof.
  intros H. specialize (H _ eq_refl).
  vm_compute in H. discriminate.
Qed.

(* ================================================================== *)
(** ** Bundling orchestrator: errors *)
(* ================================================================== *)

(** C2 (the code departs from it).  Errors of dependency resolution and
    bundling are specified to come back from the bundling orchestrator as
    diagnostics, never as an exception.  [call_rollup] awaits
    [rollup.rollup], the call that resolves and loads the module graph,
    before its [try] block; only [bundle.generate] is inside it.  When
    [rollup.rollup] rejects, [call_rollup] throws that error. *)
Theorem rollup_rejection_escapes :
  exists sp,
    storedProcedure output_message = Returned sp /\
    fst (call_rollup rollup_unresolved "temp-0" "output_message.ts" sp empty_world) =
      Thrown (Error "Could not resolve ./helper from output_message.js") /\
    fst (call_rollup rollup_generate_fails "temp-0" "output_message.ts" sp empty_world) =
      Returned (Diags {| messages := ["Error: Invalid value for option output.file"] |}).
Proof.
  eexists. split; [vm_compute; reflexivity|].
  split; rewrite call_rollup_outcome; reflexivity.
Qed.

(* ================================================================== *)
(** ** Scratch directories *)
(* ================================================================== *)

(** When every bundling goes through, [pack] returns the statements and
    no scratch directory it created is left. *)
Lemma pack_loop_cleans_up (bundler : Bundler) (fileName : string)
    (sprocs : list StoredProcedure) :
  (forall d f sp w,
     w_dirs (snd (bundler d f sp w)) = w_dirs w /\
     exists code, fst (bundler d f sp w) = Returned (Value code)) ->
  forall (sqlCodes : list string) (w : World),
    w_dirs (snd (pack_loop bundler fileName sprocs sqlCodes w)) ⊆ w_dirs w /\
    exists codes, fst (pack_loop bundler fileName sprocs sqlCodes w)
                  = Returned (Value codes).
Proof.
  intros Hb. induction sprocs as [|sp rest IH]; intros sqlCodes w.
  - cbn. split; [reflexivity | eauto].
  - cbn [pack_loop]. unfold bind, mkdtemp.
    match goal with |- context [bundler ?d ?f ?s ?w1] =>
      destruct (Hb d f s w1) as (Hd & code & Hc);
      destruct (bundler d f s w1) as [o w2] end.
    cbn in Hd, Hc. subst o. unfold rm_recursive.
    match goal with |- context [pack_loop _ _ rest ?acc ?w'] =>
      destruct (IH acc w') as (Hsub & codes & Hcodes) end.
    split; [|eauto].
    etrans; [exact Hsub|]. cbn. rewrite Hd.
    intros x Hx. apply elem_of_difference in Hx as [Hx Hn].
    apply elem_of_union in Hx as [Hx|Hx]; [contradiction | exact Hx].
Qed.

(** When the bundling of the first descriptor comes back as diagnostics,
    [pack] returns them in the world the bundler left: nothing is removed
    after the bundler call. *)
Lemma pack_loop_diagnostics (bundler : Bundler) (fileName : string)
    (sp : StoredProcedure) (rest : list StoredProcedure) (sqlCodes : list string)
    (w w1 w2 : World) (tmpDir : string) (d : Diagnostics) :
  mkdtemp "temp-" w = (Returned tmpDir, w1) ->
  bundler tmpDir fileName sp w1 = (Returned (Diags d), w2) ->
  pack_loop bundler fileName (sp :: rest) sqlCodes w = (Returned (Diags d), w2).
Proof.
  intros Hm Hb. cbn [pack_loop]. unfold bind. rewrite Hm, Hb. reflexivity.
Qed.

(** With [call_rollup] as the bundler: when the bundling of the first
    descriptor comes back as diagnostics, the scratch directory made for
    it is still there when [pack] returns. *)
Lemma pack_leaves_scratch_directory (rollup : Rollup) (fileName : string)
    (sp : StoredProcedure) (rest : list StoredProcedure) (w : World) (d : Diagnostics) :
  let tmpDir := "temp-" +:+ pretty (w_next w) in
  fst (call_rollup rollup tmpDir fileName sp (snd (mkdtemp "temp-" w)))
    = Returned (Diags d) ->
  fst (pack (call_rollup rollup) fileName (sp :: rest) w) = Returned (Diags d) /\
  tmpDir ∈ w_dirs (snd (pack (call_rollup rollup) fileName (sp :: rest) w)).
Proof.
  intros tmpDir Hb. unfold pack.
  rewrite (pack_loop_diagnostics (call_rollup rollup) fileName sp rest []
             w (snd (mkdtemp "temp-" w))
             (snd (call_rollup rollup tmpDir fileName sp (snd (mkdtemp "temp-" w))))
             tmpDir d).
  - split; [reflexivity|]. cbn [snd]. rewrite call_rollup_dirs. cbn.
    apply elem_of_union_l, elem_of_singleton. reflexivity.
  - reflexivity.
  - rewrite <- Hb. apply surjective_pairing.
Qed.

(** C3 (the code departs from it).  The scratch directory is specified to
    be deleted after the bundling call on every exit path.  In [pack] the
    [return] for a bundle that is diagnostics comes before the
    [fs.promises.rm]: on that path the directory [mkdtemp] created, and the
    entry script written into it, are still there when [pack] returns. *)
Theorem scratch_directory_left_on_diagnostics :
  exists sp w,
    storedProcedure output_message = Returned sp /\
    pack (call_rollup rollup_generate_fails) "output_message.ts" [sp] empty_world =
      (Returned (Diags {| messages := ["Error: Invalid value for option output.file"] |}), w) /\
    w_dirs w = {[ "temp-0" ]} /\
    is_Some (w_files w !! "temp-0/use.js") /\
    w_dirs (snd (pack (call_rollup rollup_ok) "output_message.ts" [sp] empty_world)) = ∅.
Proof.
  eexists. eexists. split; [vm_compute; reflexivity|].
  split; [vm_compute; reflexivity|].
  split; [vm_compute; reflexivity|].
  split; [vm_compute; eexists; reflexivity|].
  vm_compute. reflexivity.
Qed.

(* ================================================================== *)
(** ** A hard error fails the pipeline of its module *)
(* ================================================================== *)

Lemma outcome_map_throws {A B} (f : A -> outcome B) (xs : list A) (x : A) (e : JsError) :
  x ∈ xs -> f x = Thrown e -> exists e', outcome_map f xs = Thrown e'.
Proof.
  intros Hx Hf. induction xs as [|y ys IH]; [now apply elem_of_nil in Hx|].
  cbn. apply elem_of_cons in Hx as [<-|Hx].
  - rewrite Hf. cbn. eauto.
  - destruct (f y) as [b|e1]; cbn; [|eauto].
    destruct (IH Hx) as [e' ->]. cbn. eauto.
Qed.

Lemma outcome_filter_keeps {A} (f : A -> outcome bool) (xs ys : list A) (x : A) :
  outcome_filter f xs = Returned ys ->
  x ∈ xs -> f x = Returned true -> x ∈ ys.
Proof.
  revert ys. induction xs as [|y xs IH]; intros ys Hf Hx Hk;
    [now apply elem_of_nil in Hx|].
  cbn in Hf. destruct (f y) as [b|e] eqn:Hy; cbn in Hf; [|discriminate].
  destruct (outcome_filter f xs) as [zs|e]; cbn in Hf; [|discriminate].
  injection Hf as <-. apply elem_of_cons in Hx as [->|Hx].
  - rewrite Hk in Hy. injection Hy as <-. apply elem_of_cons. now left.
  - specialize (IH zs eq_refl Hx Hk).
    destruct b; [apply elem_of_cons; now right | exact IH].
Qed.

Lemma eligible_selected (decl : FunctionDeclaration) :
  eligible decl = true <->
  isStoredProcedure (FunctionDeclarationNode decl) = Returned true.
Proof.
  unfold eligible. destruct (isStoredProcedure _) as [[]|]; split;
    congruence.
Qed.

(** A marked declaration with a signature count other than one makes
    [compile] throw, before anything is emitted or bundled. *)
Lemma compile_ambiguous (bundler : Bundler) (program : Program) (fileName : string)
    (children : list Node) (decl : FunctionDeclaration) (w : World) :
  prog_sourceFile program = Some children ->
  FunctionDeclarationNode decl ∈ children ->
  eligible decl = true ->
  length (decl_signatures decl) <> 1 ->
  exists e, compile bundler program fileName w = (Thrown e, w).
Proof.
  intros Hs Hin He Hl. unfold compile. rewrite Hs. unfold bind, lift.
  unfold storedProcedures.
  destruct (outcome_filter isStoredProcedure children) as [nodes|e] eqn:Hf;
    cbn; [|eauto].
  assert (Hd : decl ∈ omap declaration_of nodes).
  { apply list_elem_of_omap. exists (FunctionDeclarationNode decl).
    split; [|reflexivity].
    apply (outcome_filter_keeps _ _ _ _ Hf Hin). now apply eligible_selected. }
  destruct (outcome_map_throws storedProcedure _ decl _ Hd
              (storedProcedure_ambiguous decl Hl)) as [e' He'].
  rewrite He'. eauto.
Qed.

(* ================================================================== *)
(** ** Batch orchestrator *)
(* ================================================================== *)

(** The earliest rejection, if there is one, is the reason of a rejected
    promise that no other rejected promise precedes; there is none only
    when no promise is rejected. *)
Lemma first_rejection_spec {A} (when : nat -> nat) (ps : list (outcome A)) (i0 : nat) :
  match first_rejection when i0 ps with
  | Some (t, e) =>
      exists i, ps !! i = Some (Thrown e) /\ t = when (i0 + i) /\
                forall j e', ps !! j = Some (Thrown e') -> t <= when (i0 + j)
  | None => Forall (fun p => ~ rejected p) ps
  end.
Proof.
  revert i0. induction ps as [|p ps IH]; intros i0; cbn [first_rejection].
  - constructor.
  - specialize (IH (S i0)).
    destruct p as [a|e].
    + destruct (first_rejection when (S i0) ps) as [[t e']|].
      * destruct IH as (i & Hi & Ht & Hmin). exists (S i).
        split; [exact Hi|]. split; [rewrite Ht; f_equal; lia|].
        intros [|j] e'' Hj; [discriminate|].
        specialize (Hmin j e'' Hj). replace (i0 + S j) with (S i0 + j) by lia.
        exact Hmin.
      * constructor; [cbn; tauto | exact IH].
    + destruct (first_rejection when (S i0) ps) as [[t e']|].
      * destruct IH as (i & Hi & Ht & Hmin).
        destruct (Nat.ltb t (when i0)) eqn:Hlt.
        -- apply Nat.ltb_lt in Hlt. exists (S i).
           split; [exact Hi|]. split; [rewrite Ht; f_equal; lia|].
           intros [|j] e'' Hj.
           ++ rewrite Nat.add_0_r. lia.
           ++ specialize (Hmin j e'' Hj).
              replace (i0 + S j) with (S i0 + j) by lia. exact Hmin.
        -- apply Nat.ltb_ge in Hlt. exists 0.
           split; [reflexivity|]. split; [f_equal; lia|].
           intros [|j] e'' Hj.
           ++ rewrite Nat.add_0_r. lia.
           ++ specialize (Hmin j e'' Hj).
              replace (i0 + S j) with (S i0 + j) by lia. lia.
      * exists 0. split; [reflexivity|]. split; [f_equal; lia|].
        intros [|j] e'' Hj.
        -- rewrite Nat.add_0_r. lia.
        -- exfalso. rewrite Forall_forall in IH.
           apply (IH (Thrown e'')); [|exact I].
           apply list_elem_of_lookup. eauto.
Qed.

Lemma Promise_all_fulfilled {A} (when : nat -> nat) (rs : list A) :
  Promise_all when (map Returned rs) = Returned rs.
Proof.
  unfold Promise_all.
  pose proof (first_rejection_spec when (map Returned rs) 0) as H.
  destruct (first_rejection when 0 (map Returned rs)) as [[t e]|].
  - destruct H as (i & Hi & _). rewrite list_lookup_fmap in Hi.
    destruct (rs !! i); discriminate.
  - f_equal. clear H. induction rs as [|r rs IH]; [reflexivity|].
    cbn. now rewrite IH.
Qed.

Lemma foldr_max_ge (l : list nat) (x : nat) :
  x ∈ l -> x <= foldr Nat.max 0 l.
Proof.
  induction l as [|y l IH]; intros Hx.
  - now apply elem_of_nil in Hx.
  - apply elem_of_cons in Hx as [->|Hx]; cbn; [lia|].
    specialize (IH Hx). lia.
Qed.

Lemma main_report_failure (results : list (orDiagnostics (list string))) :
  Exists (fun r => isDiagnostics r = true) results ->
  main_report results =
    {| exitCode := 1; stdout := []; stderr := flat_map stderr_lines results |}.
Proof.
  intros Hex. unfold main_report.
  assert (Hlen : Nat.ltb 0 (length (omap diagnostics_of results)) = true).
  { apply Nat.ltb_lt. induction Hex as [r rs Hr|r rs _ IH].
    - destruct r; [discriminate|]. cbn. lia.
    - destruct r; cbn; [exact IH | lia]. }
  rewrite Hlen. f_equal. clear.
  induction results as [|r rs IH]; [reflexivity|].
  destruct r as [l|d]; cbn; [exact IH | now rewrite IH].
Qed.

Lemma main_report_success (results : list (orDiagnostics (list string))) :
  Forall (fun r => isDiagnostics r = false) results ->
  main_report results =
    {| exitCode := 0;
       stdout := [Js.join (Js.NL +:+ Js.NL +:+ Js.NL)
                    (filter (fun s => s <> "") (concat (map statements_of results)))
                  +:+ Js.NL];
       stderr := [] |}.
Proof.
  intros Hall. unfold main_report.
  assert (Hnil : omap diagnostics_of results = []).
  { induction Hall as [|r rs Hr _ IH]; [reflexivity|].
    destruct r; [exact IH | discriminate]. }
  rewrite Hnil. cbn [length Nat.ltb Nat.leb].
  f_equal. f_equal. f_equal. f_equal.
  clear. generalize (flat_map_concat_map
    (fun x : orDiagnostics (list string) =>
       match x with Diags _ => [] | Value l => l end) results).
  intros E. transitivity (filter (fun s => Nat.ltb 0 (String.length s) = true)
                            (concat (map statements_of results))).
  - f_equal. exact E.
  - apply list_filter_iff. intros [|c s]; cbn; split; congruence.
Qed.

Lemma fulfilled_all {A} (ps : list (outcome A)) :
  Forall (fun p => ~ rejected p) ps -> ps = map Returned (omap fulfilled ps).
Proof.
  induction 1 as [|p ps Hp _ IH]; [reflexivity|].
  destruct p as [a|e]; [|now destruct Hp]. cbn. now rewrite <- IH.
Qed.

Lemma pipelines_lookup {A} (ms : list (Async A)) (w : World) (i : nat) (m : Async A) :
  ms !! i = Some m -> exists w', (pipelines ms w).1 !! i = Some (m w').1.
Proof.
  revert w i. induction ms as [|m0 ms IH]; intros w i Hi; [discriminate|].
  cbn [pipelines]. destruct (m0 w) as [o w1] eqn:Hm0.
  destruct (pipelines ms w1) as [os w2] eqn:Hp.
  destruct i as [|i]; cbn in Hi |- *.
  - injection Hi as <-. exists w. now rewrite Hm0.
  - destruct (IH w1 i Hi) as [w' Hw']. rewrite Hp in Hw'. eauto.
Qed.

Lemma diagnostics_lines (ds : list TsDiagnostic) :
  messages (diagnostics ds) = map spec_diagnostic_line ds.
Proof.
  unfold diagnostics. cbn [messages]. apply map_ext. intros d.
  unfold spec_diagnostic_line. destruct (d_file d) as [[f [line character]]|];
    [|reflexivity].
  now rewrite !Nat.add_1_r.
Qed.

Lemma compile_type_check_fails (bundler : Bundler) (program : Program)
    (fileName : string) (w : World) (ds : list TsDiagnostic) :
  type_check_fails program ds ->
  compile bundler program fileName w = (Returned (Diags (diagnostics ds)), w).
Proof.
  intros [Hs|children sprocs Hs Hsp Hne Hskip]; unfold compile; rewrite Hs.
  - reflexivity.
  - rewrite Hsp. unfold bind, lift.
    destruct sprocs as [|sp sprocs]; [congruence|]. cbn [length Nat.eqb].
    now rewrite Hskip.
Qed.

(** C8, amended.  Provided no module pipeline throws: if the outcome of
    some module is a Diagnostics value, the run exits 1, writes to
    standard error every message of every failing module, module by
    module and message by message, and writes nothing to standard output;
    if none is, the run exits 0 and prints the non-empty statements of all
    modules, in module order, joined by three line feeds.  The messages
    of a module whose type check fails are the lines
    [<file> (<line>,<col>): <message>], or the bare message without a
    position, of its compiler diagnostics. *)
Theorem batch_is_all_or_nothing (createProgram : string -> Program)
    (rollup : Rollup) (when : nat -> nat) (argv : list string) (w : World) :
  Forall (fun p => ~ rejected p)
         (compilations createProgram rollup (drop 2 argv) w) ->
  (Exists (fun r => isDiagnostics r = true) (outcomes createProgram rollup argv w) ->
   main createProgram rollup when argv w =
     Returned {| exitCode := 1;
                 stdout := [];
                 stderr := flat_map stderr_lines
                             (outcomes createProgram rollup argv w) |})
  /\
  (Forall (fun r => isDiagnostics r = false) (outcomes createProgram rollup argv w) ->
   main createProgram rollup when argv w =
     Returned {| exitCode := 0;
                 stdout := [Js.join (Js.NL +:+ Js.NL +:+ Js.NL)
                              (filter (fun s => s <> "")
                                 (concat (map statements_of
                                            (outcomes createProgram rollup argv w))))
                            +:+ Js.NL];
                 stderr := [] |})
  /\
  (forall i f ds,
     drop 2 argv !! i = Some f ->
     type_check_fails (createProgram f) ds ->
     outcomes createProgram rollup argv w !! i = Some (Diags (diagnostics ds)) /\
     messages (diagnostics ds) = map spec_diagnostic_line ds).
Proof.
  intros Hall. unfold outcomes, main.
  pose proof (fulfilled_all _ Hall) as Hps.
  set (results := omap fulfilled (compilations createProgram rollup (drop 2 argv) w)) in *.
  split; [|split].
  - intros Hex. rewrite Hps. unfold main_join.
    rewrite Promise_all_fulfilled. cbn [outcome_bind].
    now rewrite main_report_failure.
  - intros Hno. rewrite Hps. unfold main_join.
    rewrite Promise_all_fulfilled. cbn [outcome_bind].
    now rewrite main_report_success.
  - intros i f ds Hi Hfail. split; [|apply diagnostics_lines].
    assert (Hm : map (fun f => compile (call_rollup rollup) (createProgram f) f)
                     (drop 2 argv) !! i
                 = Some (compile (call_rollup rollup) (createProgram f) f))
      by (now rewrite list_lookup_fmap, Hi).
    destruct (pipelines_lookup _ w _ _ Hm) as [w' Hw'].
    rewrite (compile_type_check_fails _ _ _ _ _ Hfail) in Hw'. cbn [fst] in Hw'.
    fold (compilations createProgram rollup (drop 2 argv) w) in Hw'.
    rewrite Hps, list_lookup_fmap in Hw'.
    destruct (results !! i) as [r|]; [|discriminate].
    now injection Hw' as ->.
Qed.

Lemma batch_is_all_or_nothing_witness :
  main createProgram_sample rollup_ok in_turn
       ["ts-node"; "bin/main.ts"; "output_message.ts"; "broken.ts"] empty_world
  = Returned
      {| exitCode := 1;
         stdout := [];
         stderr :=
           [ "broken.ts (19,5): Type 'number' is not assignable to type 'string'."
               +:+ Js.NL;
             "broken.ts (19,5): Type 'number' is not assignable to type 'string'."
               +:+ Js.NL ] |}
  /\
  outcomes createProgram_sample rollup_ok
    ["ts-node"; "bin/main.ts"; "output_message.ts"; "broken.ts"] empty_world !! 1
  = Some (Diags {| messages :=
                     [ "broken.ts (19,5): Type 'number' is not assignable to type 'string'.";
                       "broken.ts (19,5): Type 'number' is not assignable to type 'string'." ] |})
  /\
  main createProgram_sample rollup_ok in_turn
       ["ts-node"; "bin/main.ts"; "output_message.ts"; "other.ts"] empty_world
  = Returned
      {| exitCode := 0;
         stdout :=
           [ spCode (descriptor output_message output_message_sig
                       (mkTag "sf_stored_procedure" None))
                    "__result = output_message(snowflake, MESSAGE);"
               +:+ Js.NL +:+ Js.NL +:+ Js.NL
               +:+ spCode (descriptor output_message output_message_sig
                             (mkTag "sf_stored_procedure" None))
                          "__result = output_message(snowflake, MESSAGE);"
               +:+ Js.NL ];
         stderr := [] |}.
Proof.
  assert (Hall : Forall (fun p => ~ rejected p)
                   (compilations createProgram_sample rollup_ok
                      (drop 2 ["ts-node"; "bin/main.ts"; "output_message.ts"; "broken.ts"])
                      empty_world))
    by (repeat constructor; intros H; exact H).
  destruct (batch_is_all_or_nothing createProgram_sample rollup_ok in_turn
              ["ts-node"; "bin/main.ts"; "output_message.ts"; "broken.ts"]
              empty_world Hall) as (Hfail & _ & Hlines).
  split; [|split].
  - rewrite Hfail; [|apply Exists_cons_tl, Exists_cons_hd; reflexivity].
    vm_compute. reflexivity.
  - assert (Hbroken : type_check_fails (createProgram_sample "broken.ts")
                        (prog_preEmitDiagnostics program_type_error
                           ++ prog_emitDiagnostics program_type_error)).
    { apply (emit_skipped program_type_error
               [ FunctionDeclarationNode output_message ]
               [ descriptor output_message output_message_sig
                   (mkTag "sf_stored_procedure" None) ]);
        [reflexivity | reflexivity | discriminate | reflexivity]. }
    exact (proj1 (Hlines 1 "broken.ts" _ eq_refl Hbroken)).
  - assert (Hall' : Forall (fun p => ~ rejected p)
                     (compilations createProgram_sample rollup_ok
                        (drop 2 ["ts-node"; "bin/main.ts"; "output_message.ts"; "other.ts"])
                        empty_world))
      by (repeat constructor; intros H; exact H).
    destruct (batch_is_all_or_nothing createProgram_sample rollup_ok in_turn
                ["ts-node"; "bin/main.ts"; "output_message.ts"; "other.ts"]
                empty_world Hall') as (_ & Hok & _).
    rewrite Hok; [|repeat constructor]. vm_compute. reflexivity.
Defined.

(** C8 as stated fails when a pipeline throws.  With [broken.ts], whose
    outcome is a Diagnostics value, and [overloaded.ts], whose pipeline
    throws, [main] returns no exit code and writes no diagnostic; with
    [overloaded.ts] and [output_message.ts] no module produced
    diagnostics and yet the run does not exit 0. *)
Lemma batch_with_a_throwing_module :
  ~ ((exists d, Returned (Diags d)
                  ∈ compilations createProgram_sample rollup_ok
                      ["broken.ts"; "overloaded.ts"] empty_world) ->
     exists run,
       main createProgram_sample rollup_ok in_turn
            ["ts-node"; "bin/main.ts"; "broken.ts"; "overloaded.ts"] empty_world
       = Returned run /\ exitCode run = 1)
  /\
  ~ (Forall (fun p => forall d, p <> Returned (Diags d))
            (compilations createProgram_sample rollup_ok
               ["overloaded.ts"; "output_message.ts"] empty_world) ->
     exists run,
       main createProgram_sample rollup_ok in_turn
            ["ts-node"; "bin/main.ts"; "overloaded.ts"; "output_message.ts"] empty_world
       = Returned run /\ exitCode run = 0).
Proof.
  split; intros H.
  - destruct H as (run & Hrun & _).
    + eexists. apply elem_of_cons. left. vm_compute. reflexivity.
    + vm_compute in Hrun. discriminate.
  - destruct H as (run & Hrun & _).
    + vm_compute. repeat constructor; intros d Hd; discriminate.
    + vm_compute in Hrun. discriminate.
Qed.

(** C4, amended.  When some module pipeline ends with a thrown error,
    [await Promise.all] in [main] raises the error of the pipeline that is
    rejected first, at the instant of that rejection: [main] ends with
    that exception, without an exit code and without output, whatever the
    pipelines settling later do.  When no pipeline throws, [main] resumes
    after all of them have settled and reports on all their outcomes. *)
Theorem hard_error_rejects_the_batch (when : nat -> nat)
    (ps : list (outcome (orDiagnostics (list string)))) :
  (Exists rejected ps ->
   exists i e,
     ps !! i = Some (Thrown e) /\
     main_join when ps = Thrown e /\
     Promise_all_settles when ps = when i /\
     forall j e', ps !! j = Some (Thrown e') -> when i <= when j)
  /\
  (Forall (fun p => ~ rejected p) ps ->
   main_join when ps = Returned (main_report (omap fulfilled ps)) /\
   waits_for_all when ps).
Proof.
  pose proof (first_rejection_spec when ps 0) as H.
  unfold waits_for_all, main_join, Promise_all, Promise_all_settles.
  destruct (first_rejection when 0 ps) as [[t e]|]; split.
  - intros _. destruct H as (i & Hi & Ht & Hmin).
    exists i, e. cbn in Ht, Hmin. subst t. auto.
  - intros Hall. exfalso. destruct H as (i & Hi & _).
    rewrite Forall_forall in Hall.
    apply (Hall (Thrown e)); [|exact I].
    apply list_elem_of_lookup. eauto.
  - intros Hex. exfalso. apply Exists_exists in Hex as (p & Hp & Hr).
    rewrite Forall_forall in H. exact (H p Hp Hr).
  - intros _. split; [reflexivity|].
    intros j Hj. apply foldr_max_ge.
    apply list_elem_of_fmap. exists j. split; [reflexivity|].
    apply elem_of_seq. lia.
Qed.

Lemma hard_error_rejects_the_batch_witness :
  main createProgram_sample rollup_ok in_turn
       ["ts-node"; "main.ts"; "output_message.ts"; "overloaded.ts"; "broken.ts"]
       empty_world
  = Thrown (Error "Function lookUp has 2 signatures ?!")
  /\
  exists run,
    main createProgram_sample rollup_ok in_turn
         ["ts-node"; "main.ts"; "output_message.ts"; "broken.ts"] empty_world
    = Returned run /\ exitCode run = 1.
Proof.
  split.
  - destruct (proj1 (hard_error_rejects_the_batch in_turn
                       (compilations createProgram_sample rollup_ok
                          ["output_message.ts"; "overloaded.ts"; "broken.ts"]
                          empty_world)))
      as (i & e & Hi & Hm & _).
    + apply Exists_cons_tl, Exists_cons_hd. exact I.
    + unfold main. cbn [drop]. rewrite Hm.
      destruct i as [|[|[|i]]]; vm_compute in Hi; try discriminate Hi.
      injection Hi as <-. reflexivity.
  - destruct (proj2 (hard_error_rejects_the_batch in_turn
                       (compilations createProgram_sample rollup_ok
                          ["output_message.ts"; "broken.ts"] empty_world)))
      as (Hm & _).
    + repeat constructor; intros H; exact H.
    + unfold main. cbn [drop]. rewrite Hm. eexists. split; reflexivity.
Defined.

(** C4 as stated fails: with the modules [overloaded.ts], whose marked
    function has two signatures, and [output_message.ts], the exception of
    the first pipeline ends [main] itself, which returns no verdict, and
    it does so before the second pipeline has settled. *)
Lemma hard_error_is_not_contained :
  ~ (exists run,
       main createProgram_sample rollup_ok in_turn
            ["ts-node"; "main.ts"; "overloaded.ts"; "output_message.ts"]
            empty_world = Returned run)
  /\
  ~ waits_for_all in_turn
      (compilations createProgram_sample rollup_ok
         ["overloaded.ts"; "output_message.ts"] empty_world).
Proof.
  split.
  - intros [run Hrun]. vm_compute in Hrun. discriminate.
  - intros Hw. assert (H : in_turn 1 <= 0); [|unfold in_turn in H; lia].
    refine (Nat.le_trans _ _ _ (Hw 1 _) _); vm_compute; lia.
Qed.

(* ================================================================== *)
(** ** The documented run *)
(* ================================================================== *)

(** [spt output_message.ts], as the README shows it. *)
Example readme_output_message :
  main createProgram_sample rollup_ok in_turn
       ["ts-node"; "bin/main.ts"; "output_message.ts"] empty_world
  = Returned
      {| exitCode := 0;
         stdout :=
           [ "create or replace procedure output_message(MESSAGE STRING) returns STRING language javascript as $$"
               +:+ Js.NL +:+ "    let __result = null;"
               +:+ Js.NL
               +:+ Js.NL +:+ "    __result = output_message(snowflake, MESSAGE);"
               +:+ Js.NL +:+ "    return __result;"
               +:+ Js.NL +:+ "$$;"
               +:+ Js.NL ];
         stderr := [] |}.
Proof. vm_compute. reflexivity. Qed.

(** A module with a type error next to a clean one: exit code 1, nothing
    on standard output, the diagnostic of the failing module on standard
    error, once as pre-emit diagnostic and once as diagnostic of the
    skipped emit. *)
Example type_error_next_to_clean_module :
  main createProgram_sample rollup_ok in_turn
       ["ts-node"; "bin/main.ts"; "broken.ts"; "output_message.ts"] empty_world
  = Returned
      {| exitCode := 1;
         stdout := [];
         stderr :=
           [ "broken.ts (19,5): Type 'number' is not assignable to type 'string'."
               +:+ Js.NL;
             "broken.ts (19,5): Type 'number' is not assignable to type 'string'."
               +:+ Js.NL ] |}.
Proof. vm_compute. reflexivity. Qed.

Example split_lines_crlf :
  Js.split_lines ("a" +:+ String Js.CR (String Js.LF "b") +:+ Js.NL +:+ "c")
  = ["a"; "b"; "c"].
Proof. reflexivity. Qed.

Example mapToSQL_Date : mapToSQL "Date" = Js.VString "TIMESTAMP_LTZ".
Proof. vm_compute. reflexivity. Qed.

(* ================================================================== *)
(** ** Further properties: strings *)
(* ================================================================== *)

Lemma split_lines_nonempty (s : string) : Js.split_lines s <> [].
Proof.
  destruct s as [|c s]; cbn; [discriminate|].
  destruct (Ascii.eqb c Js.LF); [discriminate|].
  assert (H : forall ls, Js.push_front c ls <> []) by (intros [|l ls]; discriminate).
  destruct (Ascii.eqb c Js.CR); [|apply H].
  destruct s as [|c' s]; [apply H|].
  destruct (Ascii.eqb c' Js.LF); [discriminate | apply H].
Qed.

Lemma push_front_no_line_feed (c : ascii) (ls : list string) :
  Ascii.eqb c Js.LF = false ->
  Forall (fun l => Js.LF ∉ chars l) ls ->
  Forall (fun l => Js.LF ∉ chars l) (Js.push_front c ls).
Proof.
  intros Hc Hls. apply Ascii.eqb_neq in Hc.
  destruct Hls as [|l ls Hl Hls]; cbn.
  - constructor; [|constructor]. cbn. intros H.
    apply elem_of_cons in H as [H|H]; [congruence | now apply elem_of_nil in H].
  - constructor; [|exact Hls]. cbn. intros H.
    apply elem_of_cons in H as [H|H]; [congruence | contradiction].
Qed.

Lemma split_lines_no_line_feed_bounded (n : nat) (s : string) :
  String.length s <= n ->
  Forall (fun l => Js.LF ∉ chars l) (Js.split_lines s).
Proof.
  revert s. induction n as [|n IH]; intros s Hn.
  - destruct s; [|cbn in Hn; lia]. cbn. constructor; [|constructor].
    cbn. apply not_elem_of_nil.
  - destruct s as [|c s]; cbn [Js.split_lines].
    + constructor; [|constructor]. cbn. apply not_elem_of_nil.
    + cbn in Hn. assert (Hs : String.length s <= n) by lia.
      destruct (Ascii.eqb c Js.LF) eqn:Hc.
      * constructor; [cbn; apply not_elem_of_nil | now apply IH].
      * destruct (Ascii.eqb c Js.CR);
          [|apply push_front_no_line_feed; [exact Hc | now apply IH]].
        destruct s as [|c' s'];
          [apply push_front_no_line_feed; [exact Hc | now apply IH]|].
        destruct (Ascii.eqb c' Js.LF);
          [|apply push_front_no_line_feed; [exact Hc | now apply IH]].
        constructor; [cbn; apply not_elem_of_nil|].
        apply IH. cbn in Hs. lia.
Qed.

(** X1.  The pieces of [bundle.split(/\r?\n/)] are never none and none of
    them contains a line feed: every piece is one line of the rendered
    body. *)
Theorem split_lines_pieces_are_lines (s : string) :
  Js.split_lines s <> [] /\
  Forall (fun l => Js.LF ∉ chars l) (Js.split_lines s).
Proof.
  split; [apply split_lines_nonempty|].
  apply (split_lines_no_line_feed_bounded (String.length s)). lia.
Qed.

Lemma join_push_front (sep : string) (c : ascii) (ls : list string) :
  ls <> [] -> Js.join sep (Js.push_front c ls) = String c (Js.join sep ls).
Proof.
  destruct ls as [|l [|l' ls]]; [congruence | reflexivity | reflexivity].
Qed.

Lemma join_cons (sep x : string) (ls : list string) :
  ls <> [] -> Js.join sep (x :: ls) = x +:+ sep +:+ Js.join sep ls.
Proof. destruct ls; [congruence | reflexivity]. Qed.

Lemma join_split_lines (sep s : string) :
  Js.CR ∉ chars s ->
  Js.join sep (Js.split_lines s) = replace_line_feeds sep s.
Proof.
  induction s as [|c s IH]; intros Hcr; [reflexivity|].
  cbn [chars] in Hcr. apply not_elem_of_cons in Hcr as [Hc Hs].
  cbn [Js.split_lines replace_line_feeds].
  destruct (Ascii.eqb c Js.LF).
  - rewrite join_cons by apply split_lines_nonempty. now rewrite IH.
  - assert (E : Ascii.eqb c Js.CR = false) by (apply Ascii.eqb_neq; congruence).
    rewrite E, join_push_front by apply split_lines_nonempty. now rewrite IH.
Qed.

(** X2.  For a bundle without carriage returns, the body of the rendered
    statement is the bundle with four spaces put in front and after every
    line feed, and nothing else changed. *)
Theorem body_is_indented (sp : StoredProcedure) (bundle : string) :
  Js.CR ∉ chars bundle ->
  spCode sp bundle =
    "create or replace procedure " +:+ sqlSignature sp +:+ " language javascript"
      +:+ sqlRights (sp_rights sp) +:+ " as $$" +:+ Js.NL
      +:+ "    let __result = null;" +:+ Js.NL
      +:+ Js.NL
      +:+ "    " +:+ replace_line_feeds (Js.NL +:+ "    ") bundle +:+ Js.NL
      +:+ "    return __result;" +:+ Js.NL
      +:+ "$$;".
Proof.
  intros Hcr. unfold spCode. now rewrite join_split_lines.
Qed.

Lemma body_is_indented_witness :
  exists sp,
    storedProcedure output_message = Returned sp /\
    spCode sp ("function f() {" +:+ Js.NL +:+ "}")
    = "create or replace procedure output_message(MESSAGE STRING) returns STRING language javascript as $$"
        +:+ Js.NL +:+ "    let __result = null;"
        +:+ Js.NL
        +:+ Js.NL +:+ "    function f() {"
        +:+ Js.NL +:+ "    }"
        +:+ Js.NL +:+ "    return __result;"
        +:+ Js.NL +:+ "$$;".
Proof.
  eexists. split; [vm_compute; reflexivity|].
  rewrite body_is_indented.
  - vm_compute. reflexivity.
  - vm_compute. intros H.
    repeat (apply elem_of_cons in H as [H|H]; [discriminate|]).
    now apply elem_of_nil in H.
Defined.

Lemma upper_ascii_not_lower (c : ascii) : is_lower (Js.upper_ascii c) = false.
Proof. destruct c as [[] [] [] [] [] [] [] []]; reflexivity. Qed.

Lemma toUpperCase_no_lower (s : string) :
  Forall (fun c => is_lower c = false) (chars (Js.toUpperCase s)).
Proof.
  induction s as [|c s IH]; cbn; constructor;
    [apply upper_ascii_not_lower | exact IH].
Qed.

(** X3.  For an eligible declaration with its one call signature whose
    parameter names are made of ASCII characters, no parameter name of
    the descriptor contains a lower-case letter, whatever the casing in
    the source. *)
Theorem parameter_names_have_no_lower_case (decl : FunctionDeclaration) (sig : Sig) :
  eligible decl = true ->
  decl_signatures decl = [sig] ->
  Forall (fun p => ascii_only (sym_name p)) (sig_params sig) ->
  exists sp,
    storedProcedure decl = Returned sp /\
    Forall (fun p => Forall (fun c => is_lower c = false) (chars (p_name p)))
           (sp_params sp).
Proof.
  intros He Hs _.
  destruct (storedProcedure_single decl sig He Hs) as (tag & _ & _ & Hsp).
  exists (descriptor decl sig tag). split; [exact Hsp|].
  unfold descriptor. cbn [sp_params].
  apply Forall_fmap, Forall_forall. intros p _. cbn.
  apply toUpperCase_no_lower.
Qed.

Lemma parameter_names_have_no_lower_case_witness :
  exists sp,
    storedProcedure (marked "getRowCount" "caller" "number") = Returned sp /\
    Forall (fun p => Forall (fun c => is_lower c = false) (chars (p_name p)))
           (sp_params sp).
Proof.
  exact (parameter_names_have_no_lower_case
           (marked "getRowCount" "caller" "number")
           (mkSig [ mkSym "snowflake" "" "Snowflake"; mkSym "rowCount" "" "number" ]
                  "void" "")
           eq_refl eq_refl
           ltac:(repeat constructor; cbn; lia)).
Defined.

Lemma substring_prefix (s t : string) :
  substring 0 (String.length s) (s +:+ t) = s.
Proof.
  induction s as [|c s IH].
  - destruct t; reflexivity.
  - exact (f_equal (String c) IH).
Qed.

Lemma length_append (s t : string) :
  String.length (s +:+ t) = String.length s + String.length t.
Proof.
  induction s as [|c s IH]; [reflexivity|].
  change (S (String.length (s +:+ t)) = S (String.length s + String.length t)).
  now rewrite IH.
Qed.

(** X4.  [fileName.substring(0, fileName.length - 3)] cuts off the last
    three characters whatever they are, and leaves nothing of a name of
    at most three characters. *)
Theorem drop_extension_cuts_three (stem ext : string) :
  (String.length ext = 3 -> Js.drop_extension (stem +:+ ext) = stem) /\
  (String.length stem <= 3 -> Js.drop_extension stem = "").
Proof.
  unfold Js.drop_extension. split.
  - intros He. rewrite length_append, He.
    replace (String.length stem + 3 - 3) with (String.length stem) by lia.
    apply substring_prefix.
  - intros Hl. replace (String.length stem - 3) with 0 by lia.
    destruct stem; reflexivity.
Qed.

Lemma drop_extension_cuts_three_witness :
  Js.drop_extension ("example/current" +:+ ".ts") = "example/current" /\
  Js.drop_extension ("plot" +:+ "tsx") = "plot" /\
  Js.drop_extension "ts" = "".
Proof.
  split; [|split].
  - apply (proj1 (drop_extension_cuts_three "example/current" ".ts")). reflexivity.
  - apply (proj1 (drop_extension_cuts_three "plot" "tsx")). reflexivity.
  - apply (proj2 (drop_extension_cuts_three "ts" "")). cbn. lia.
Defined.

(* ================================================================== *)
(** ** Further properties: scanner and descriptor builder *)
(* ================================================================== *)

Lemma isStoredProcedure_eligible (decl : FunctionDeclaration) (b : bool) :
  isStoredProcedure (FunctionDeclarationNode decl) = Returned b -> eligible decl = b.
Proof. unfold eligible. intros ->. now destruct b. Qed.

(** When the scan goes through, the filter keeps the marked function
    declarations, in order. *)
Lemma scan_selects (children : list Node) :
  scannable children ->
  exists nodes,
    outcome_filter isStoredProcedure children = Returned nodes /\
    omap declaration_of nodes
      = filter (fun decl => eligible decl = true) (omap declaration_of children).
Proof.
  induction 1 as [|n children [b Hn] _ (nodes & Hf & Hd)]; [now exists []|].
  cbn [outcome_filter]. rewrite Hn, Hf. cbn [outcome_bind].
  eexists. split; [reflexivity|].
  destruct n as [decl|].
  - apply isStoredProcedure_eligible in Hn.
    change (omap declaration_of (FunctionDeclarationNode decl :: children))
      with (decl :: omap declaration_of children).
    rewrite filter_cons. destruct b.
    + rewrite decide_True by exact Hn.
      change (omap declaration_of (FunctionDeclarationNode decl :: nodes))
        with (decl :: omap declaration_of nodes).
      now rewrite Hd.
    + rewrite decide_False by congruence. exact Hd.
  - cbn in Hn. injection Hn as <-. exact Hd.
Qed.

Lemma outcome_map_storedProcedure (decls : list FunctionDeclaration) :
  Forall (fun decl => eligible decl = true) decls ->
  Forall (fun decl => length (decl_signatures decl) = 1) decls ->
  exists sps,
    outcome_map storedProcedure decls = Returned sps /\
    map sp_name sps = map decl_name decls.
Proof.
  intros He Hl. induction decls as [|decl decls IH]; cbn.
  - exists []. now split.
  - apply Forall_cons in He as [He He']. apply Forall_cons in Hl as [Hl Hl'].
    destruct (IH He' Hl') as (sps & Hsps & Hnames).
    destruct (decl_signatures decl) as [|sig [|sig' l]] eqn:Hs; cbn in Hl;
      try discriminate.
    destruct (storedProcedure_single decl sig He Hs) as (tag & _ & _ & Hsp).
    rewrite Hsp, Hsps. cbn. eexists. split; [reflexivity|].
    cbn. now rewrite Hnames.
Qed.

Lemma marked_unambiguous (decls : list FunctionDeclaration) :
  Forall (fun decl => eligible decl = true -> length (decl_signatures decl) = 1) decls ->
  Forall (fun decl => eligible decl = true)
         (filter (fun decl => eligible decl = true) decls) /\
  Forall (fun decl => length (decl_signatures decl) = 1)
         (filter (fun decl => eligible decl = true) decls).
Proof.
  intros H. split; apply Forall_forall; intros d Hd;
    apply list_elem_of_filter in Hd as [He Hd]; [exact He|].
  rewrite Forall_forall in H. now apply H.
Qed.

(** X5.  When the scan of the children of the source file goes through
    and every marked function has exactly one call signature, the scanner
    yields one descriptor for each marked function and for nothing else,
    in the order of the declarations in the module. *)
Theorem descriptors_follow_declaration_order (children : list Node) :
  scannable children ->
  unambiguous children ->
  exists sps,
    storedProcedures children = Returned sps /\
    map sp_name sps
      = map decl_name
          (filter (fun decl => eligible decl = true) (omap declaration_of children)).
Proof.
  intros Hscan Hu. destruct (scan_selects children Hscan) as (nodes & Hf & Hd).
  unfold storedProcedures. rewrite Hf. cbn [outcome_bind]. rewrite Hd.
  destruct (marked_unambiguous _ Hu) as [He Hl].
  now apply outcome_map_storedProcedure.
Qed.

Lemma descriptors_follow_declaration_order_witness :
  exists sps,
    storedProcedures two_procedures = Returned sps /\
    map sp_name sps = ["current_t"; "current_v"].
Proof.
  apply (descriptors_follow_declaration_order two_procedures).
  - repeat constructor; eexists; reflexivity.
  - repeat constructor; cbn; congruence.
Defined.

Lemma outcome_map_app_throw {A B} (f : A -> outcome B) (pre post : list A)
    (x : A) (ys : list B) (e : JsError) :
  outcome_map f pre = Returned ys ->
  f x = Thrown e ->
  outcome_map f (pre ++ x :: post) = Thrown e.
Proof.
  revert ys. induction pre as [|p pre IH]; intros ys Hpre Hx; cbn.
  - now rewrite Hx.
  - cbn in Hpre. destruct (f p) as [b|e1]; cbn in *; [|discriminate].
    destruct (outcome_map f pre) as [bs|e2]; cbn in *; [|discriminate].
    now rewrite (IH bs eq_refl Hx).
Qed.

(** X6.  When the scan of all the children goes through, the scanner
    throws the error of the first marked function, in declaration order,
    whose signature count is not one, whatever the signature counts of
    the functions declared after it. *)
Theorem first_ambiguous_declaration_is_reported
    (pre post : list Node) (decl : FunctionDeclaration) :
  scannable (pre ++ FunctionDeclarationNode decl :: post) ->
  unambiguous pre ->
  eligible decl = true ->
  length (decl_signatures decl) <> 1 ->
  storedProcedures (pre ++ FunctionDeclarationNode decl :: post) =
    Thrown (Error ("Function " +:+ decl_name decl +:+ " has "
                     +:+ Js.number_toString (length (decl_signatures decl))
                     +:+ " signatures ?!")).
Proof.
  intros Hscan Hu He Hl.
  destruct (scan_selects _ Hscan) as (nodes & Hf & Hd).
  unfold storedProcedures. rewrite Hf. cbn [outcome_bind]. rewrite Hd.
  rewrite omap_app.
  change (omap declaration_of (FunctionDeclarationNode decl :: post))
    with (decl :: omap declaration_of post).
  rewrite filter_app, filter_cons, decide_True by exact He.
  destruct (marked_unambiguous _ Hu) as [Hpe Hpl].
  destruct (outcome_map_storedProcedure _ Hpe Hpl) as (sps & Hsps & _).
  apply (outcome_map_app_throw _ _ _ _ sps); [exact Hsps|].
  now apply storedProcedure_ambiguous.
Qed.

Lemma first_ambiguous_declaration_is_reported_witness :
  storedProcedures
    (two_procedures ++ FunctionDeclarationNode overloaded
       :: [ FunctionDeclarationNode
              {| decl_name := "later";
                 decl_jsDoc := [ tagged [ mkTag "sf_stored_procedure" None ] ];
                 decl_signatures := [] |} ])
  = Thrown (Error "Function lookUp has 2 signatures ?!").
Proof.
  apply (first_ambiguous_declaration_is_reported two_procedures _ overloaded).
  - repeat constructor; eexists; reflexivity.
  - repeat constructor; cbn; congruence.
  - reflexivity.
  - cbn. lia.
Defined.

Lemma some_marker_first (pre : list JSDocTag) (tag : JSDocTag)
    (post : list (option JSDocTag)) :
  Forall (fun t => is_marker t = false) pre -> is_marker tag = true ->
  some_marker (map Some pre ++ Some tag :: post) = Returned true /\
  find_marker (map Some pre ++ Some tag :: post) = Returned (Some tag).
Proof.
  intros Hpre Hm. induction Hpre as [|t pre Ht _ IH]; cbn.
  - now rewrite Hm.
  - now rewrite Ht.
Qed.

(** X7.  When a declaration carries the marker tag more than once, the
    rights come from the comment of the first marker tag; what follows
    it, marker tags, other tags or comments without tags, changes
    nothing. *)
Theorem rights_come_from_first_marker_tag (decl : FunctionDeclaration) (sig : Sig)
    (pre : list JSDocTag) (post : list (option JSDocTag)) (tag : JSDocTag) :
  jsTags decl = map Some pre ++ Some tag :: post ->
  Forall (fun t => is_marker t = false) pre ->
  is_marker tag = true ->
  decl_signatures decl = [sig] ->
  exists sp,
    storedProcedure decl = Returned sp /\
    sp_rights sp = rights_of_comment (tag_comment tag).
Proof.
  intros Ht Hpre Hm Hs.
  destruct (some_marker_first pre tag post Hpre Hm) as [Hsome Hfind].
  assert (He : eligible decl = true).
  { unfold eligible, isStoredProcedure. now rewrite Ht, Hsome. }
  destruct (storedProcedure_single decl sig He Hs) as (tag' & Htag & _ & Hsp).
  unfold storedProcedureTag in Htag.
  rewrite Ht, Hfind in Htag. injection Htag as <-.
  exists (descriptor decl sig tag). now split.
Qed.

Lemma rights_come_from_first_marker_tag_witness :
  exists sp,
    storedProcedure
      {| decl_name := "f";
         decl_jsDoc := [ tagged [ mkTag "param" (Some "owner");
                                  mkTag "sf_stored_procedure" (Some "caller");
                                  mkTag "sf_stored_procedure" (Some "owner") ];
                         mkJSDoc None ];
         decl_signatures := [ output_message_sig ] |} = Returned sp /\
    sp_rights sp = Rights_member CALLER.
Proof.
  refine (rights_come_from_first_marker_tag
            {| decl_name := "f";
               decl_jsDoc := [ tagged [ mkTag "param" (Some "owner");
                                        mkTag "sf_stored_procedure" (Some "caller");
                                        mkTag "sf_stored_procedure" (Some "owner") ];
                               mkJSDoc None ];
               decl_signatures := [ output_message_sig ] |}
            output_message_sig
            [ mkTag "param" (Some "owner") ]
            [ Some (mkTag "sf_stored_procedure" (Some "owner")); None ]
            (mkTag "sf_stored_procedure" (Some "caller")) eq_refl _ eq_refl eq_refl).
  repeat constructor.
Defined.

Lemma outcome_filter_throws {A} (f : A -> outcome bool) (xs : list A) (x : A)
    (e : JsError) :
  (forall y e', f y = Thrown e' -> e' = e) ->
  x ∈ xs -> f x = Thrown e -> outcome_filter f xs = Thrown e.
Proof.
  intros Hone Hx Hf. induction xs as [|y ys IH]; [now apply elem_of_nil in Hx|].
  cbn. destruct (f y) as [b|e1] eqn:Hy; cbn.
  - apply elem_of_cons in Hx as [->|Hx]; [congruence|].
    now rewrite (IH Hx).
  - now rewrite (Hone y e1 Hy).
Qed.

Lemma some_marker_error (tags : list (option JSDocTag)) (e : JsError) :
  some_marker tags = Thrown e -> e = TypeError_undefined "tagName".
Proof.
  induction tags as [|[t|] tags IH]; cbn; [discriminate | | congruence].
  destruct (is_marker t); [discriminate | exact IH].
Qed.

Lemma some_marker_undefined (pre : list JSDocTag) (post : list (option JSDocTag)) :
  Forall (fun t => is_marker t = false) pre ->
  some_marker (map Some pre ++ None :: post) = Thrown (TypeError_undefined "tagName").
Proof.
  induction 1 as [|t pre Ht _ IH]; cbn; [reflexivity | now rewrite Ht].
Qed.

(** X23.  A function declaration among the children whose tags, as
    [jsTags] collects them, have the [undefined] of a doc comment without
    tags before any marker tag makes the scanner throw the TypeError of
    reading [tagName] of [undefined], whether or not the function is
    marked further on and whatever the other children are. *)
Theorem comment_without_tags_breaks_the_scan (children : list Node)
    (decl : FunctionDeclaration) (pre : list JSDocTag) (post : list (option JSDocTag)) :
  FunctionDeclarationNode decl ∈ children ->
  jsTags decl = map Some pre ++ None :: post ->
  Forall (fun t => is_marker t = false) pre ->
  storedProcedures children = Thrown (TypeError_undefined "tagName").
Proof.
  intros Hin Ht Hpre. unfold storedProcedures.
  rewrite (outcome_filter_throws isStoredProcedure children
             (FunctionDeclarationNode decl) (TypeError_undefined "tagName"));
    [reflexivity | | exact Hin |].
  - intros [d|] e' He'; cbn in He'; [|discriminate].
    now apply some_marker_error in He'.
  - cbn. rewrite Ht. now apply some_marker_undefined.
Qed.

Lemma comment_without_tags_breaks_the_scan_witness :
  storedProcedures
    (two_procedures
       ++ [ FunctionDeclarationNode
              {| decl_name := "avg";
                 decl_jsDoc := [ mkJSDoc None ];
                 decl_signatures := [ mkSig [ mkSym "xs" "" "number[]" ] "number" "" ] |} ])
  = Thrown (TypeError_undefined "tagName").
Proof.
  refine (comment_without_tags_breaks_the_scan _
            {| decl_name := "avg";
               decl_jsDoc := [ mkJSDoc None ];
               decl_signatures := [ mkSig [ mkSym "xs" "" "number[]" ] "number" "" ] |}
            [] [] _ eq_refl _).
  - apply elem_of_app. right. apply elem_of_cons. now left.
  - constructor.
Defined.

Lemma mapToSQL_renders (dataType : string) :
  Js.toString (mapToSQL dataType) <> "".
Proof.
  destruct (Js.Object_prototype !! dataType) as [v|] eqn:Hp.
  - rewrite (mapToSQL_inherited _ _ Hp).
    apply elem_of_list_to_map_2 in Hp. unfold Js.Object_prototype_table in Hp.
    repeat (apply elem_of_cons in Hp as [Hp|Hp];
            [injection Hp as _ ->; vm_compute; discriminate|]).
    now apply elem_of_nil in Hp.
  - destruct (mapToSQL_string _ Hp) as (t & -> & Ht). exact Ht.
Qed.

(** X8.  For an eligible declaration with its one call signature, the
    text rendered for the return type and for the type of every
    parameter is never empty, whatever the source type names are. *)
Theorem rendered_types_are_never_empty (decl : FunctionDeclaration) (sig : Sig) :
  eligible decl = true ->
  decl_signatures decl = [sig] ->
  exists sp,
    storedProcedure decl = Returned sp /\
    Js.toString (sp_returnType sp) <> "" /\
    Forall (fun p => Js.toString (p_type p) <> "") (sp_params sp).
Proof.
  intros He Hs.
  destruct (storedProcedure_single decl sig He Hs) as (tag & _ & _ & Hsp).
  exists (descriptor decl sig tag). split; [exact Hsp|].
  unfold descriptor. cbn [sp_returnType sp_params]. split.
  - destruct (String.eqb (sig_returnType sig) "void");
      [discriminate | apply mapToSQL_renders].
  - apply Forall_fmap, Forall_forall. intros p _. cbn. apply mapToSQL_renders.
Qed.

Lemma rendered_types_are_never_empty_witness :
  exists sp,
    storedProcedure (marked "f" "" "") = Returned sp /\
    Js.toString (sp_returnType sp) <> "" /\
    Forall (fun p => Js.toString (p_type p) <> "") (sp_params sp).
Proof.
  exact (rendered_types_are_never_empty (marked "f" "" "")
           (mkSig [ mkSym "snowflake" "" "Snowflake"; mkSym "rowCount" "" "" ] "void" "")
           eq_refl eq_refl).
Defined.

(** X9.  A marked function that declares at most the connection
    parameter is rendered with an empty parameter list, and its entry
    script calls it with the connection object alone; this also holds for
    a function that declares no parameter at all. *)
Theorem no_parameters_after_the_connection (decl : FunctionDeclaration) (sig : Sig)
    (fileName : string) :
  eligible decl = true ->
  decl_signatures decl = [sig] ->
  length (sig_params sig) <= 1 ->
  exists sp,
    storedProcedure decl = Returned sp /\
    sqlSignature sp =
      decl_name decl +:+ "()" +:+ " returns " +:+ Js.toString (sp_returnType sp) /\
    use_js fileName sp =
      "import {" +:+ decl_name decl +:+ "} from '../"
        +:+ Js.drop_extension fileName +:+ ".js" +:+ "'" +:+ Js.NL
        +:+ "__result = " +:+ decl_name decl +:+ "(snowflake)".
Proof.
  intros He Hs Hl.
  destruct (storedProcedure_single decl sig He Hs) as (tag & _ & _ & Hsp).
  exists (descriptor decl sig tag). split; [exact Hsp|].
  assert (Hd : drop 1 (sig_params sig) = []).
  { destruct (sig_params sig) as [|p [|p' ps]]; cbn in *; [reflexivity..|lia]. }
  unfold sqlSignature, use_js, descriptor. cbn [sp_name sp_params sp_returnType].
  rewrite Hd. cbn [map Js.join]. rewrite !append_assoc. split; reflexivity.
Qed.

Lemma no_parameters_after_the_connection_witness :
  exists sp,
    storedProcedure
      {| decl_name := "current_t";
         decl_jsDoc := [ tagged [ mkTag "sf_stored_procedure" None ] ];
         decl_signatures := [ mkSig [] "Date" "The current timestamp." ] |}
    = Returned sp /\
    sqlSignature sp = "current_t() returns TIMESTAMP_LTZ" /\
    use_js "current.ts" sp =
      "import {current_t} from '../current.js'" +:+ Js.NL
        +:+ "__result = current_t(snowflake)".
Proof.
  destruct (no_parameters_after_the_connection
              {| decl_name := "current_t";
                 decl_jsDoc := [ tagged [ mkTag "sf_stored_procedure" None ] ];
                 decl_signatures := [ mkSig [] "Date" "The current timestamp." ] |}
              (mkSig [] "Date" "The current timestamp.") "current.ts"
              eq_refl eq_refl (Nat.le_0_l 1)) as (sp & Hsp & Hq & Hu).
  exists sp. split; [exact Hsp|]. rewrite Hq, Hu.
  injection Hsp as <-. split; vm_compute; reflexivity.
Defined.

(* ================================================================== *)
(** ** Further properties: compile and pack *)
(* ================================================================== *)

Lemma outcome_filter_none {A} (f : A -> outcome bool) (l : list A) :
  Forall (fun x => f x = Returned false) l -> outcome_filter f l = Returned [].
Proof.
  induction 1 as [|x l Hx _ IH]; [reflexivity|].
  cbn. now rewrite Hx, IH.
Qed.

Lemma compile_nothing_to_do (bundler : Bundler) (program : Program)
    (fileName : string) (w : World) :
  no_procedures program ->
  compile bundler program fileName w = (Returned (Value []), w).
Proof.
  intros (children & Hs & Hall). unfold compile. rewrite Hs.
  unfold storedProcedures. rewrite (outcome_filter_none _ _ Hall). reflexivity.
Qed.

(** X10.  For a module in which the scan selects no function and meets
    no doc comment without tags, [compile] returns the empty list of
    statements and touches nothing on disk: nothing is emitted, the
    bundler is not called, and type errors of the module go unreported. *)
Theorem module_without_procedures_is_skipped (bundler : Bundler) (program : Program)
    (fileName : string) (w : World) :
  no_procedures program ->
  compile bundler program fileName w = (Returned (Value []), w).
Proof.
  intros (children & Hs & Hall). unfold compile. rewrite Hs.
  assert (Hnone : outcome_filter isStoredProcedure children = Returned [])
    by (now apply outcome_filter_none).
  unfold storedProcedures. rewrite Hnone. reflexivity.
Qed.

Lemma module_without_procedures_is_skipped_witness :
  prog_emitSkipped program_plain_broken = true /\
  prog_preEmitDiagnostics program_plain_broken <> [] /\
  compile (call_rollup rollup_unresolved) program_plain_broken "avg.ts" empty_world
  = (Returned (Value []), empty_world).
Proof.
  split; [reflexivity|]. split; [discriminate|].
  apply module_without_procedures_is_skipped.
  eexists. split; [reflexivity|]. repeat constructor.
Defined.

(** X11.  When the type check of a module fails, that is when the
    program has no source file for it, or the module has marked functions
    and its emit is skipped, [compile] returns diagnostics and touches
    nothing on disk; the messages are those of the pre-emit diagnostics,
    followed for a skipped emit by those of the emit diagnostics. *)
Theorem type_errors_come_back_as_diagnostics (bundler : Bundler) (program : Program)
    (fileName : string) (w : World) (ds : list TsDiagnostic) :
  type_check_fails program ds ->
  compile bundler program fileName w = (Returned (Diags (diagnostics ds)), w).
Proof.
  intros [Hs|children sprocs Hs Hsp Hne Hskip]; unfold compile; rewrite Hs.
  - reflexivity.
  - rewrite Hsp. unfold bind, lift.
    assert (Hlen : Nat.eqb (length sprocs) 0 = false)
      by (destruct sprocs; [congruence | reflexivity]).
    now rewrite Hlen, Hskip.
Qed.

Lemma type_errors_come_back_as_diagnostics_witness :
  compile (call_rollup rollup_ok) program_type_error "broken.ts" empty_world
  = (Returned
       (Diags {| messages :=
                   [ "broken.ts (19,5): Type 'number' is not assignable to type 'string'.";
                     "broken.ts (19,5): Type 'number' is not assignable to type 'string'." ] |}),
     empty_world).
Proof.
  refine (type_errors_come_back_as_diagnostics (call_rollup rollup_ok)
            program_type_error "broken.ts" empty_world _
            (emit_skipped program_type_error
               [ FunctionDeclarationNode output_message ]
               [ descriptor output_message output_message_sig
                   (mkTag "sf_stored_procedure" None) ]
               eq_refl eq_refl _ eq_refl)).
  discriminate.
Defined.

Lemma substring_all (t : string) : substring 0 (String.length t) t = t.
Proof.
  induction t as [|c t IH]; [reflexivity|].
  exact (f_equal (String c) IH).
Qed.

Lemma substring_suffix (s t : string) :
  substring (String.length s) (String.length t) (s +:+ t) = t.
Proof.
  induction s as [|c s IH]; [apply substring_all | exact IH].
Qed.

Lemma endsWith_append (s suffix : string) :
  Js.endsWith (s +:+ suffix) suffix = true.
Proof.
  unfold Js.endsWith. rewrite length_append.
  replace (String.length s + String.length suffix - String.length suffix)
    with (String.length s) by lia.
  rewrite substring_suffix, String.eqb_refl, andb_true_r.
  apply Nat.leb_le. lia.
Qed.

Lemma drop_extension_append (stem ext : string) :
  String.length ext = 3 -> Js.drop_extension (stem +:+ ext) = stem.
Proof.
  intros He. unfold Js.drop_extension. rewrite length_append, He.
  replace (String.length stem + 3 - 3) with (String.length stem) by lia.
  apply substring_prefix.
Qed.

(** X12.  When a TypeScript module with marked functions is emitted and
    [compile] returns, with statements or with diagnostics of the
    bundler, the script emitted for the module is no longer on disk, also
    when a file of that name was there before. *)
Theorem emitted_script_is_removed (bundler : Bundler) (program : Program)
    (stem : string) (children : list Node) (sprocs : list StoredProcedure)
    (w w' : World) (result : orDiagnostics (list string)) :
  prog_sourceFile program = Some children ->
  storedProcedures children = Returned sprocs ->
  sprocs <> [] ->
  prog_emitSkipped program = false ->
  compile bundler program (stem +:+ ".ts") w = (Returned result, w') ->
  w_files w' !! (stem +:+ ".js") = None.
Proof.
  intros Hs Hsp Hne Hskip. unfold compile. rewrite Hs, Hsp.
  assert (Hlen : Nat.eqb (length sprocs) 0 = false)
    by (destruct sprocs; [congruence | reflexivity]).
  unfold bind at 1. unfold lift. rewrite Hlen, Hskip.
  rewrite endsWith_append, drop_extension_append by reflexivity.
  unfold bind, emit, rm, ret.
  destruct (pack bundler _ sprocs _) as [[r|e] w1]; [|discriminate].
  destruct (w_files w1 !! (stem +:+ ".js")); [|discriminate].
  intros [= _ <-]. cbn. apply lookup_delete_eq.
Qed.

Lemma emitted_script_is_removed_witness :
  exists result w',
    compile (call_rollup rollup_generate_fails) program_output_message
            ("output_message" +:+ ".ts")
            {| w_dirs := ∅;
               w_files := {[ "output_message.js" := "kept from an earlier build" ]};
               w_next := 0 |}
    = (Returned result, w') /\
    w_files w' !! ("output_message" +:+ ".js") = None.
Proof.
  eexists. eexists. split; [vm_compute; reflexivity|].
  refine (emitted_script_is_removed (call_rollup rollup_generate_fails)
            program_output_message "output_message"
            [ OtherNode; FunctionDeclarationNode output_message ]
            [ descriptor output_message output_message_sig
                (mkTag "sf_stored_procedure" None) ]
            {| w_dirs := ∅;
               w_files := {[ "output_message.js" := "kept from an earlier build" ]};
               w_next := 0 |} _ _ eq_refl eq_refl _ eq_refl _).
  - discriminate.
  - vm_compute. reflexivity.
Defined.

Lemma pack_loop_statements (bundler : Bundler) (fileName : string)
    (sprocs : list StoredProcedure) :
  forall (sqlCodes codes : list string) (w : World),
    fst (pack_loop bundler fileName sprocs sqlCodes w) = Returned (Value codes) ->
    exists new,
      codes = sqlCodes ++ new /\
      Forall2 (fun sp c => exists rest,
                 c = "create or replace procedure " +:+ sp_name sp +:+ "(" +:+ rest)
              sprocs new.
Proof.
  induction sprocs as [|sp rest IH]; intros sqlCodes codes w.
  - cbn. intros [= <-]. exists []. rewrite app_nil_r. split; constructor.
  - cbn [pack_loop]. unfold bind, mkdtemp.
    destruct (bundler _ fileName sp _) as [[[code|d]|e] w2]; cbn;
      [|discriminate..].
    unfold rm_recursive. intros H.
    destruct (IH _ _ _ H) as (new & -> & Hall).
    exists (spCode sp code :: new). rewrite <- app_assoc. cbn.
    split; [reflexivity|].
    constructor; [|exact Hall]. unfold spCode, sqlSignature.
    rewrite !append_assoc. eauto.
Qed.

(** X13.  When [pack] returns statements, there is exactly one for each
    descriptor, in the order of the descriptors, and the statement of a
    descriptor opens with [create or replace procedure ], its name and
    the opening parenthesis: a module never yields a part of its
    statements. *)
Theorem pack_returns_all_statements (bundler : Bundler) (fileName : string)
    (sprocs : list StoredProcedure) (codes : list string) (w : World) :
  fst (pack bundler fileName sprocs w) = Returned (Value codes) ->
  length codes = length sprocs /\
  Forall2 (fun sp c => exists rest,
             c = "create or replace procedure " +:+ sp_name sp +:+ "(" +:+ rest)
          sprocs codes.
Proof.
  intros H. destruct (pack_loop_statements _ _ _ _ _ _ H) as (new & -> & Hall).
  split; [|exact Hall]. symmetry. exact (Forall2_length _ _ _ Hall).
Qed.

Lemma pack_returns_all_statements_witness :
  exists sps codes,
    storedProcedures two_procedures = Returned sps /\
    fst (pack (call_rollup rollup_ok) "current.ts" sps empty_world)
      = Returned (Value codes) /\
    length codes = 2.
Proof.
  eexists. eexists. split; [vm_compute; reflexivity|].
  match goal with |- fst (pack ?b ?f ?sps ?w) = Returned (Value ?codes) /\ _ =>
    assert (H : fst (pack b f sps w) = Returned (Value codes))
      by (vm_compute; reflexivity)
  end.
  split; [exact H|].
  exact (proj1 (pack_returns_all_statements _ _ _ _ _ H)).
Defined.




(* ================================================================== *)
(** ** Further properties: bundling orchestrator and main *)
(* ================================================================== *)

(** X14.  An error of [bundle.close()], which runs in the [finally]
    block, is thrown out of [call_rollup] and replaces what the [try] or
    the [catch] block was about to return, the bundle as well as the
    diagnostics of a failed [generate]. *)
Theorem close_error_replaces_the_result (rollup : Rollup) (tmpDir fileName : string)
    (sp : StoredProcedure) (w : World) (b : RollupBuild) (e : JsError) :
  rollup (tmpDir +:+ "/use.js")
         (<[ tmpDir +:+ "/use.js" := use_js fileName sp ]> (w_files w)) = Returned b ->
  build_close b = Thrown e ->
  fst (call_rollup rollup tmpDir fileName sp w) = Thrown e.
Proof.
  intros Hr Hc. rewrite call_rollup_outcome. cbn zeta. now rewrite Hr, Hc.
Qed.

Lemma close_error_replaces_the_result_witness :
  exists sp,
    storedProcedure output_message = Returned sp /\
    fst (call_rollup rollup_close_fails "temp-0" "output_message.ts" sp empty_world)
      = Thrown (Error "close failed").
Proof.
  eexists. split; [vm_compute; reflexivity|].
  exact (close_error_replaces_the_result rollup_close_fails "temp-0"
           "output_message.ts" _ empty_world _ _ eq_refl eq_refl).
Defined.

Lemma pipelines_nothing_to_do (createProgram : string -> Program) (bundler : Bundler)
    (fileNames : list string) (w : World) :
  Forall (fun f => no_procedures (createProgram f)) fileNames ->
  pipelines (map (fun f => compile bundler (createProgram f) f) fileNames) w
  = (map (fun _ => Returned (Value [])) fileNames, w).
Proof.
  induction 1 as [|f fs Hf _ IH]; [reflexivity|].
  cbn. rewrite (compile_nothing_to_do _ _ _ _ Hf), IH. reflexivity.
Qed.

(** X15.  When no module given on the command line has a marked
    function, and in particular when no module is given, the run exits 0
    after printing one empty line; it writes nothing to standard error,
    reports no type error and calls the bundler for nothing. *)
Theorem run_without_procedures (createProgram : string -> Program) (rollup : Rollup)
    (when : nat -> nat) (argv : list string) (w : World) :
  Forall (fun f => no_procedures (createProgram f)) (drop 2 argv) ->
  main createProgram rollup when argv w
  = Returned {| exitCode := 0; stdout := [ Js.NL ]; stderr := [] |}.
Proof.
  intros Hall. unfold main, compilations.
  rewrite (pipelines_nothing_to_do _ _ _ _ Hall). cbn [fst].
  replace (map (fun _ : string => Returned (Value [])) (drop 2 argv))
    with (map (@Returned (orDiagnostics (list string)))
              (map (fun _ : string => Value []) (drop 2 argv)))
    by (now rewrite map_map).
  unfold main_join. rewrite Promise_all_fulfilled. cbn [outcome_bind].
  f_equal. unfold main_report.
  assert (E : forall l : list string,
             omap diagnostics_of (map (fun _ : string => @Value (list string) []) l) = []).
  { intros l. induction l as [|f fs IH]; [reflexivity | exact IH]. }
  rewrite E. cbn [length Nat.ltb Nat.leb].
  assert (T : forall l : list string,
             flat_map (fun x : orDiagnostics (list string) =>
                         match x with Diags _ => [] | Value l => l end)
               (map (fun _ : string => @Value (list string) []) l) = []).
  { intros l. induction l as [|f fs IH]; [reflexivity | exact IH]. }
  rewrite T. reflexivity.
Qed.

Lemma run_without_procedures_witness :
  main (fun _ => program_plain_broken) rollup_unresolved in_turn
       ["ts-node"; "bin/main.ts"; "avg.ts"; "til.ts"] empty_world
  = Returned {| exitCode := 0; stdout := [ Js.NL ]; stderr := [] |}
  /\
  main createProgram_sample rollup_ok in_turn ["ts-node"; "bin/main.ts"] empty_world
  = Returned {| exitCode := 0; stdout := [ Js.NL ]; stderr := [] |}.
Proof.
  split.
  - apply run_without_procedures.
    repeat constructor; (eexists; split; [reflexivity | repeat constructor]).
  - apply run_without_procedures. constructor.
Defined.

(* ================================================================== *)
(** ** Further properties: the type predicates *)
(* ================================================================== *)

Lemma isStringArray_of_strings (l : list string) :
  Dyn.isStringArray (Dyn.of_strings l) = true.
Proof.
  unfold Dyn.of_strings. cbn. induction l as [|s l IH]; [reflexivity | exact IH].
Qed.

Lemma isStringArray_inv (m : Dyn.dyn) :
  Dyn.isStringArray m = true -> exists l, m = Dyn.of_strings l.
Proof.
  destruct m as [| | | | |items|]; cbn; try discriminate.
  intros H. enough (exists l, items = map Dyn.Str l) as [l ->] by (now exists l).
  induction items as [|x items IH]; [now exists []|].
  cbn in H. apply andb_true_iff in H as [Hx Hi].
  destruct (IH Hi) as [l ->].
  destruct x; try discriminate. now exists (s :: l).
Qed.

(** X16.  On the values it is applied to, [isDiagnostics] tells the two
    members of the union apart: it answers false for the bundled script
    (a string) and for the list of statements (an array of strings), and
    true for a Diagnostics object, also one without messages. *)
Theorem isDiagnostics_separates_the_unions :
  (forall x : orDiagnostics string,
     Dyn.isDiagnostics (Dyn.of_bundle x) = Returned (isDiagnostics x)) /\
  (forall x : orDiagnostics (list string),
     Dyn.isDiagnostics (Dyn.of_compilation x) = Returned (isDiagnostics x)).
Proof.
  assert (H : forall d, Dyn.isDiagnostics (Dyn.of_Diagnostics d) = Returned true).
  { intros d. unfold Dyn.isDiagnostics, Dyn.of_Diagnostics.
    cbn -[Dyn.of_strings Dyn.isStringArray].
    now rewrite isStringArray_of_strings. }
  split; intros [v|d]; try reflexivity; apply H.
Qed.

(** X17.  [isDiagnostics] throws for [null], whose [typeof] is [object]
    and whose property cannot be read, and for no other value. *)
Theorem isDiagnostics_throws_only_for_null (x : Dyn.dyn) :
  (exists e, Dyn.isDiagnostics x = Thrown e) <-> x = Dyn.Null.
Proof.
  split.
  - intros [e H]. destruct x; try reflexivity; discriminate.
  - intros ->. eexists. reflexivity.
Qed.

(** X18.  [isDiagnostics] answers true exactly for a value whose
    [messages] property, its own or one inherited through [__proto__]
    entries, is an array of strings; the object may have other properties
    and the array may be empty. *)
Theorem isDiagnostics_true_iff (x : Dyn.dyn) :
  Dyn.isDiagnostics x = Returned true <->
  exists l, Dyn.lookup x "messages" = Some (Dyn.of_strings l).
Proof.
  split.
  - destruct x as [| | | | | |props]; try discriminate.
    unfold Dyn.isDiagnostics, Dyn.get_messages.
    cbn -[Dyn.lookup Dyn.of_strings Dyn.isStringArray].
    destruct (Dyn.lookup (Dyn.Obj props) "messages") as [m|];
      cbn -[Dyn.of_strings]; [|discriminate].
    intros [= H]. destruct (isStringArray_inv m H) as [l ->]. now exists l.
  - intros (l & Hm). destruct x as [| | | | | |props]; try discriminate.
    unfold Dyn.isDiagnostics, Dyn.get_messages.
    cbn -[Dyn.lookup Dyn.of_strings Dyn.isStringArray].
    rewrite Hm. cbn -[Dyn.of_strings Dyn.isStringArray].
    now rewrite isStringArray_of_strings.
Qed.

Lemma isDiagnostics_throws_only_for_null_witness :
  (exists e, Dyn.isDiagnostics Dyn.Null = Thrown e) /\
  ~ (exists e, Dyn.isDiagnostics Dyn.Undefined = Thrown e).
Proof.
  split.
  - apply (proj2 (isDiagnostics_throws_only_for_null Dyn.Null)). reflexivity.
  - intros H. apply (proj1 (isDiagnostics_throws_only_for_null Dyn.Undefined)) in H.
    discriminate.
Defined.

Lemma isDiagnostics_true_iff_witness :
  Dyn.isDiagnostics
    (Dyn.Obj [ ("code", Dyn.Number 2); ("messages", Dyn.Arr []) ]) = Returned true
  /\
  Dyn.isDiagnostics
    (Dyn.Obj [ ("__proto__", Dyn.Obj [ ("messages", Dyn.Arr [ Dyn.Str "inherited" ]) ]) ])
  = Returned true
  /\
  Dyn.isDiagnostics (Dyn.Obj [ ("__proto__", Dyn.Arr []) ]) <> Returned true.
Proof.
  split; [|split].
  - apply (proj2 (isDiagnostics_true_iff _)). now exists [].
  - apply (proj2 (isDiagnostics_true_iff _)). now exists ["inherited"].
  - intros H. apply (proj1 (isDiagnostics_true_iff _)) in H as [l Hl].
    discriminate.
Defined.

(* ================================================================== *)
(** ** Further properties: example/result-set.ts *)
(* ================================================================== *)

Section ResultSetFacts.

Import ResultSets.

Lemma columns_from (columns : nat) (full : list cell) (rest : list (list cell)) :
  forall (r : list cell) (k : nat),
    drop k full = r ->
    outcome_map
      (fun x => getColumnValue
                  {| rs_columns := columns; rs_current := Some full; rs_rest := rest |}
                  (x + 1))
      (seq k (length r))
    = Returned r.
Proof.
  induction r as [|v r IH]; intros k Hk; [reflexivity|].
  cbn [length seq outcome_map].
  assert (Hv : full !! k = Some v).
  { rewrite <- (Nat.add_0_r k), <- lookup_drop, Hk. reflexivity. }
  assert (Hr : drop (S k) full = r).
  { replace (S k) with (k + 1) by lia. rewrite <- drop_drop, Hk. reflexivity. }
  unfold getColumnValue at 1. cbn [rs_current]. rewrite Nat.add_1_r, Hv.
  cbn [outcome_bind]. rewrite (IH (S k) Hr). reflexivity.
Qed.

Lemma rowToArray_current (columns : nat) (r : list cell) (rest : list (list cell)) :
  length r = columns ->
  rowToArray {| rs_columns := columns; rs_current := Some r; rs_rest := rest |}
  = Returned r.
Proof.
  intros <-. unfold rowToArray, getColumnCount. cbn [rs_columns].
  now apply columns_from.
Qed.

Lemma Array_from_rows (columns : nat) (rows : list (list cell)) :
  Forall (fun r => length r = columns) rows ->
  forall (bound : nat) (current : option (list cell)),
    length rows < bound ->
    Array_from bound
      {| rs_columns := columns; rs_current := current; rs_rest := rows |} rowToArray
    = Returned rows.
Proof.
  induction 1 as [|r rows Hr _ IH]; intros bound current Hb.
  - destruct bound as [|bound]; [cbn in Hb; lia | reflexivity].
  - destruct bound as [|bound]; [cbn in Hb; lia|].
    cbn [Array_from resultSetIter_next next rs_rest rs_columns negb].
    rewrite (rowToArray_current _ _ _ Hr). cbn [outcome_bind].
    rewrite IH by (cbn in Hb; lia). reflexivity.
Qed.

End ResultSetFacts.

(** X19.  When the statement yields a table whose rows all have the
    number of columns the result set reports, [fetchAll] returns exactly
    the rows of the table, in order, each as the array of its column
    values; for a table without rows it returns the empty array. *)
Theorem fetchAll_returns_every_row (snowflake : ResultSets.Snowflake)
    (sqlText : string) (binds : option (list ResultSets.cell))
    (columns : nat) (rows : list (list ResultSets.cell)) :
  snowflake sqlText binds = Returned (ResultSets.fresh columns rows) ->
  Forall (fun r => length r = columns) rows ->
  ResultSets.fetchAll snowflake sqlText binds = Returned rows.
Proof.
  intros He Hwf. unfold ResultSets.fetchAll. rewrite He. cbn [outcome_bind].
  unfold ResultSets.resultsToGrid, ResultSets.fresh. cbn [ResultSets.rs_rest].
  apply Array_from_rows; [exact Hwf | lia].
Qed.

Lemma fetchAll_returns_every_row_witness :
  ResultSets.fetchAll (ResultSets.table 2 sample_rows)
    "select * from values (1, 2), (3, 4)" None
  = Returned [ [ ResultSets.Num 1; ResultSets.Num 2 ];
               [ ResultSets.Num 3; ResultSets.Num 4 ] ].
Proof.
  apply (fetchAll_returns_every_row _ _ _ 2 sample_rows eq_refl).
  repeat constructor.
Defined.

(** X20.  Under the same condition [fetchOne] returns the first row of
    the table as an array, and [null] when the table has no rows. *)
Theorem fetchOne_returns_the_first_row (snowflake : ResultSets.Snowflake)
    (sqlText : string) (binds : option (list ResultSets.cell))
    (columns : nat) (rows : list (list ResultSets.cell)) :
  snowflake sqlText binds = Returned (ResultSets.fresh columns rows) ->
  Forall (fun r => length r = columns) rows ->
  ResultSets.fetchOne snowflake sqlText binds = Returned (head rows).
Proof.
  intros He Hwf. unfold ResultSets.fetchOne. rewrite He. cbn [outcome_bind].
  destruct Hwf as [|r rows Hr _]; [reflexivity|].
  cbn [ResultSets.next ResultSets.fresh ResultSets.rs_rest ResultSets.rs_columns].
  rewrite (rowToArray_current _ _ _ Hr). reflexivity.
Qed.

Lemma fetchOne_returns_the_first_row_witness :
  ResultSets.fetchOne (ResultSets.table 2 sample_rows)
    "select * from values (1, 2), (3, 4)" None
  = Returned (Some [ ResultSets.Num 1; ResultSets.Num 2 ])
  /\
  ResultSets.fetchOne (ResultSets.table 2 []) "select 1, 2 where false" None
  = Returned None.
Proof.
  split.
  - apply (fetchOne_returns_the_first_row _ _ _ 2 sample_rows eq_refl).
    repeat constructor.
  - apply (fetchOne_returns_the_first_row _ _ _ 2 [] eq_refl). constructor.
Defined.

(** X21.  Under the same condition, for a table with at least one
    column, [fetchCell] returns the value of the first column of the
    first row, and [null] when the table has no rows; a [null] result
    therefore does not tell an empty table from a NULL in that cell. *)
Theorem fetchCell_returns_the_first_cell (snowflake : ResultSets.Snowflake)
    (sqlText : string) (binds : option (list ResultSets.cell))
    (columns : nat) (rows : list (list ResultSets.cell)) :
  snowflake sqlText binds = Returned (ResultSets.fresh columns rows) ->
  Forall (fun r => length r = columns) rows ->
  0 < columns ->
  ResultSets.fetchCell snowflake sqlText binds
  = Returned (default ResultSets.Null (head rows ≫= head)).
Proof.
  intros He Hwf Hc. unfold ResultSets.fetchCell. rewrite He. cbn [outcome_bind].
  destruct Hwf as [|r rows Hr _]; [reflexivity|].
  cbn [ResultSets.next ResultSets.fresh ResultSets.rs_rest ResultSets.rs_columns].
  destruct r as [|v r]; [cbn in Hr; lia|]. reflexivity.
Qed.

Lemma fetchCell_returns_the_first_cell_witness :
  ResultSets.fetchCell (ResultSets.table 2 sample_rows)
    "select * from values (1, 2), (3, 4)" None
  = Returned (ResultSets.Num 1)
  /\
  ResultSets.fetchCell (ResultSets.table 1 []) "select 1 where false" None
  = Returned ResultSets.Null
  /\
  ResultSets.fetchCell (ResultSets.table 1 [ [ ResultSets.Null ] ]) "select null" None
  = Returned ResultSets.Null.
Proof.
  split; [|split].
  - apply (fetchCell_returns_the_first_cell _ _ _ 2 sample_rows eq_refl);
      [repeat constructor | lia].
  - apply (fetchCell_returns_the_first_cell _ _ _ 1 [] eq_refl); [constructor | lia].
  - apply (fetchCell_returns_the_first_cell _ _ _ 1 [ [ ResultSets.Null ] ] eq_refl);
      [repeat constructor | lia].
Defined.
